(** * IntelELM: the multi-layer ELM network and its optimiser plumbing

    A shallow embedding of [intelelm/model/base_elm.py]:
    - [Py]: Python exceptions and the state-and-exception monad in which
      the methods of an object run;
    - [Np]: numpy arrays as a shape and a row-major buffer, with the
      reshaping primitives the code calls;
    - [MultiLayerELM]: the network (initialisation, forward pass, fit,
      predict, encode, decode, get_ndim);
    - [BaseElm] and [BaseMhaElm]: the estimator constructor, the bounds
      resolver, the objective resolver and the fitness placeholder. *)

From Stdlib Require Import ZArith List Lia Bool.
From Stdlib Require Import Floats.
From stdpp Require Import gmap strings list fin_maps.

(** ** Python: exceptions, results, methods *)

Module Py.

Inductive exn : Type :=
| ValueError (msg : string)
| TypeError (msg : string)
| IndexError (msg : string)
| KeyError (msg : string)
| AttributeError (msg : string)
| OverflowError (msg : string)
| LinAlgError (msg : string)
| NotImplementedError (msg : string).

Inductive result (X : Type) : Type :=
| Ok (x : X)
| Raise (e : exn).
Arguments Ok {X} x.
Arguments Raise {X} e.

Definition rbind {X Y} (r : result X) (k : X -> result Y) : result Y :=
  match r with
  | Ok x => k x
  | Raise e => Raise e
  end.

(** A method of an object whose state has type [S]: it returns the
    state it leaves behind together with its return value or the
    exception it raised.  A raise keeps the mutations made so far. *)
Definition M (S X : Type) : Type := S -> S * result X.

Definition ret {S X} (x : X) : M S X := fun s => (s, Ok x).
Definition raise {S X} (e : exn) : M S X := fun s => (s, Raise e).
Definition bind {S X Y} (c : M S X) (k : X -> M S Y) : M S Y :=
  fun s =>
    match c s with
    | (s', Ok x) => k x s'
    | (s', Raise e) => (s', Raise e)
    end.
Definition get {S} : M S S := fun s => (s, Ok s).
Definition modify {S} (f : S -> S) : M S unit := fun s => (f s, Ok tt).
Definition lift {S X} (r : result X) : M S X := fun s => (s, r).

End Py.

Import Py.

Declare Scope py_scope.
Delimit Scope py_scope with py.
Notation "'let*' x := c 'in' k" := (bind c (fun x => k))
  (at level 10, x name, c at level 100, k at level 200) : py_scope.
Notation "c ;; k" := (bind c (fun _ => k))
  (at level 100, k at level 200, right associativity) : py_scope.
Notation "'let?' x := c 'in' k" := (rbind c (fun x => k))
  (at level 10, x name, c at level 100, k at level 200).

(** ** numpy arrays *)

Module Np.

(** An array is its shape and its elements in C (row-major) order. *)
Record ndarray (A : Type) : Type := mk_ndarray {
  shape : list nat;
  data : list A
}.
Arguments mk_ndarray {A} shape data.
Arguments shape {A} _.
Arguments data {A} _.

Definition size_of (sh : list nat) : nat := foldr Nat.mul 1 sh.

(** [np.array(xs)] of a flat Python sequence. *)
Definition array1 {A} (xs : list A) : ndarray A :=
  mk_ndarray [length xs] xs.

(** [a.flatten()] *)
Definition flatten {A} (a : ndarray A) : ndarray A :=
  array1 (data a).

(** [a.reshape(sh)]: the buffer is kept, the element count must fit. *)
Definition reshape {A} (a : ndarray A) (sh : list nat) : result (ndarray A) :=
  if Nat.eqb (length (data a)) (size_of sh)
  then Ok (mk_ndarray sh (data a))
  else Raise (ValueError "cannot reshape array").

(** [v[start:stop]] on a one-dimensional array, [start <= stop]:
    Python clamps the slice to the array. *)
Definition slice {A} (v : ndarray A) (start stop : nat) : ndarray A :=
  array1 (take (stop - start) (drop start (data v))).

(** [np.concatenate(arrays)] of one-dimensional arrays. *)
Definition concatenate {A} (arrays : list (ndarray A)) : result (ndarray A) :=
  match arrays with
  | [] => Raise (ValueError "need at least one array to concatenate")
  | _ => Ok (array1 (concat (map data arrays)))
  end.

End Np.

Import Np.

(** The numeric kernels the network calls are numpy's and the package's
    activation catalogue; they are external to [base_elm.py] and enter
    as an interface.  [A] is the scalar type (float64 in the
    running program), [G] the state of a bit generator and [E] the
    entropy the operating system hands to an unseeded generator. *)
Class Numpy (A G E : Type) : Type := {
  (** [np.dot(a, b)] *)
  np_dot : ndarray A -> ndarray A -> result (ndarray A);
  (** [a + b] with broadcasting *)
  np_add : ndarray A -> ndarray A -> result (ndarray A);
  (** [np.linalg.pinv(a)] *)
  np_pinv : ndarray A -> result (ndarray A);
  (** [getattr(activation, name)] *)
  activation : string -> option (ndarray A -> result (ndarray A));
  (** the generator [np.random.default_rng] builds from an integer seed *)
  rng_of_seed : Z -> G;
  (** the generator it builds from fresh entropy when the seed is None *)
  rng_of_entropy : E -> G;
  (** one standard-normal sample, and the generator after it *)
  rng_normal : G -> A * G
}.

(** ** class MultiLayerELM *)

Module MultiLayerELM.
Section Model.

Context {A G E : Type} `{NP : !Numpy A G E}.

(** The attributes of an instance.  [obj_scaler] is only ever read by
the callers of this class and is left out. *)
Record t : Type := mk {
layer_sizes : list nat;
act_name : string;
act_func : ndarray A -> result (ndarray A);
generator : G;
weights : list (ndarray A);
biases : list (ndarray A);
beta : option (ndarray A);
input_size : option nat
}.

Definition set_weights (ws : list (ndarray A)) (self : t) : t :=
mk (layer_sizes self) (act_name self) (act_func self) (generator self)
 ws (biases self) (beta self) (input_size self).
Definition set_biases (bs : list (ndarray A)) (self : t) : t :=
mk (layer_sizes self) (act_name self) (act_func self) (generator self)
 (weights self) bs (beta self) (input_size self).
Definition set_beta (b : option (ndarray A)) (self : t) : t :=
mk (layer_sizes self) (act_name self) (act_func self) (generator self)
 (weights self) (biases self) b (input_size self).
Definition set_input_size (n : option nat) (self : t) : t :=
mk (layer_sizes self) (act_name self) (act_func self) (generator self)
 (weights self) (biases self) (beta self) n.
Definition set_generator (g : G) (self : t) : t :=
mk (layer_sizes self) (act_name self) (act_func self) g
 (weights self) (biases self) (beta self) (input_size self).

(** [self.weights.append(w)], [self.biases.append(b)] *)
Definition append_weight (w : ndarray A) : M t unit :=
modify (fun self => set_weights (weights self ++ [w]) self).
Definition append_bias (b : ndarray A) : M t unit :=
modify (fun self => set_biases (biases self ++ [b]) self).

(** [np.random.default_rng(seed)] *)
Definition default_rng (os : E) (seed : option Z) : result G :=
match seed with
| None => Ok (rng_of_entropy os)
| Some s =>
  if (s <? 0)%Z
  then Raise (ValueError "expected non-negative integer")
  else Ok (rng_of_seed s)
end.

(** [MultiLayerELM(layer_sizes, act_name, seed)]; [os] is the entropy
the process would read for an unseeded generator. *)
Definition __init__ (os : E) (layer_sizes : list nat) (act_name : string)
(seed : option Z) : result t :=
let? f :=
match activation act_name with
| Some f => Ok f
| None => Raise (AttributeError act_name)
end in
let? g := default_rng os seed in
Ok (mk layer_sizes act_name f g [] [] None None).

(** [generator.standard_normal(size=sh)]: the samples fill the array
in C order. *)
Fixpoint draw_n (n : nat) (g : G) : list A * G :=
match n with
| 0 => ([], g)
| S k =>
  let (x, g1) := rng_normal g in
  let (xs, g2) := draw_n k g1 in
  (x :: xs, g2)
end.

Definition standard_normal (sh : list nat) : M t (ndarray A) :=
fun self =>
let (xs, g) := draw_n (size_of sh) (generator self) in
(set_generator g self, Ok (mk_ndarray sh xs)).

Fixpoint initialize_loop (sizes : list nat) (input_size : nat) : M t unit :=
match sizes with
| [] => ret tt
| size :: rest =>
  (let* weight := standard_normal [input_size; size] in
   let* bias := standard_normal [size] in
   append_weight weight;;
   append_bias bias;;
   initialize_loop rest size)%py
end.

Definition _initialize_weights (input_size : nat) : M t unit :=
(modify (set_weights []);;
 modify (set_biases []);;
 let* self := get in
 initialize_loop (layer_sizes self) input_size)%py.

(** [xs[i]] on a Python list, [0 <= i] *)
Definition getitem {X} (xs : list X) (i : nat) : result X :=
match xs !! i with
| Some x => Ok x
| None => Raise (IndexError "list index out of range")
end.

Fixpoint forward_loop (self : t) (idx : list nat) (X : ndarray A)
: result (ndarray A) :=
match idx with
| [] => Ok X
| i :: rest =>
  let? w := getitem (weights self) i in
  let? z := np_dot X w in
  let? b := getitem (biases self) i in
  let? s := np_add z b in
  let? X' := act_func self s in
  forward_loop self rest X'
end.

Definition _forward (self : t) (X : ndarray A) : result (ndarray A) :=
forward_loop self (seq 0 (length (layer_sizes self))) X.

(** [X.shape[1]] *)
Definition shape_at (X : ndarray A) (i : nat) : result nat :=
match shape X !! i with
| Some n => Ok n
| None => Raise (IndexError "tuple index out of range")
end.

(** [self.beta = np.dot(np.linalg.pinv(H), y)] with [H = self._forward(X)] *)
Definition update_beta (X y : ndarray A) : M t unit :=
(let* self := get in
 let* H := lift (_forward self X) in
 let* P := lift (np_pinv H) in
 let* b := lift (np_dot P y) in
 modify (set_beta (Some b)))%py.

Definition fit (X y : ndarray A) : M t unit :=
(let* n := lift (shape_at X 1) in
 modify (set_input_size (Some n));;
 _initialize_weights n;;
 update_beta X y)%py.

Definition predict (self : t) (X : ndarray A) : result (ndarray A) :=
let? H := _forward self X in
match beta self with
| Some b => np_dot H b
| None => Raise (TypeError "unsupported operand type(s) for *: 'float' and 'NoneType'")
end.

Definition encode (self : t) : result (ndarray A) :=
let flat_weights := map flatten (weights self) in
let flat_biases := map flatten (biases self) in
concatenate (flat_weights ++ flat_biases).

(** An operand of [*] that has to be an integer: [None * size] raises. *)
Definition int_operand (n : option nat) : result nat :=
match n with
| Some k => Ok k
| None => Raise (TypeError "unsupported operand type(s) for *: 'NoneType' and 'int'")
end.

Fixpoint decode_loop (solution_vector : ndarray A) (sizes : list nat)
(start : nat) (input_size : option nat) : M t unit :=
match sizes with
| [] => ret tt
| size :: rest =>
  (let* n := lift (int_operand input_size) in
   let weight_size := n * size in
   let bias_size := size in
   let* weight :=
     lift (reshape (slice solution_vector start (start + weight_size))
                   [n; size]) in
   append_weight weight;;
   let start := start + weight_size in
   let bias := slice solution_vector start (start + bias_size) in
   append_bias bias;;
   let start := start + bias_size in
   decode_loop solution_vector rest start (Some size))%py
end.

(** The first part of [decode]: the hidden parameters are rebuilt from
the solution vector. *)
Definition decode_params (solution_vector : ndarray A) : M t unit :=
(let* self := get in
 let input_size := input_size self in
 modify (set_weights []);;
 modify (set_biases []);;
 decode_loop solution_vector (layer_sizes self) 0 input_size)%py.

Definition decode (solution_vector X y : ndarray A) : M t unit :=
(decode_params solution_vector;;
 update_beta X y)%py.

Fixpoint ndim_loop (sizes : list nat) (total_params : nat)
(input_size : option nat) : result nat :=
match sizes with
| [] => Ok total_params
| size :: rest =>
  let? n := int_operand input_size in
  let total_params := total_params + n * size in
  let total_params := total_params + size in
  ndim_loop rest total_params (Some size)
end.

Definition get_ndim (self : t) : result nat :=
ndim_loop (layer_sizes self) 0 (input_size self).

(** The dimension as the specification writes it: the sum over the
layers [i] of [layer_sizes[i-1] * layer_sizes[i] + layer_sizes[i]],
with the input size in the place of [layer_sizes[-1]]. *)
Definition fan_in (input_size : nat) (sizes : list nat) (i : nat) : nat :=
match i with
| 0 => input_size
| S j => nth j sizes 0
end.

Definition ndim_formula (input_size : nat) (sizes : list nat) : nat :=
sum_list
(map (fun i => fan_in input_size sizes i * nth i sizes 0 + nth i sizes 0)
     (seq 0 (length sizes))).

(** The layout the specification describes: layer by layer, the
flattened weights of a layer followed by its flattened biases. *)
Fixpoint interleaved (ws bs : list (ndarray A)) : list A :=
match ws, bs with
| w :: ws', b :: bs' => data w ++ data b ++ interleaved ws' bs'
| _, _ => []
end.

(** The shape invariant of the data model: one weight matrix and one
bias vector per layer, [weights[i]] of shape (fan-in, size) and
[biases[i]] of shape (size,). *)
Fixpoint shaped (input_size : nat) (sizes : list nat)
(ws bs : list (ndarray A)) : Prop :=
match sizes, ws, bs with
| [], [], [] => True
| size :: rest, w :: ws', b :: bs' =>
  shape w = [input_size; size] /\ length (data w) = input_size * size /\
  shape b = [size] /\ length (data b) = size /\
  shaped size rest ws' bs'
| _, _, _ => False
end.

(** What the two [print] calls of [get_weights] write. *)
Inductive printed : Type :=
| PrintShapes (shapes : list (list nat))
| PrintShape (sh : list nat).

(** [get_weights]: the shapes of the weights are printed, then the shape
    of [beta] (which raises while [beta] is None), and the dict of the
    parameters is returned.  The result comes with the lines printed. *)
Definition get_weights (self : t)
    : list printed * result (list (ndarray A) * list (ndarray A) * ndarray A) :=
  let line1 := PrintShapes (map shape (weights self)) in
  match beta self with
  | None =>
      ([line1], Raise (AttributeError "'NoneType' object has no attribute 'shape'"))
  | Some b =>
      ([line1; PrintShape (shape b)], Ok (weights self, biases self, b))
  end.

End Model.
End MultiLayerELM.

(** ** Python values, as far as the estimator classes look at them *)

Module PyObj.

(** Classes: the built-in ones the code tests for, [numpy.ndarray], and
    user classes deriving from them. *)
Inductive pyclass : Type :=
| c_object | c_NoneType | c_bool | c_int | c_float | c_str
| c_list | c_tuple | c_dict | c_ndarray
| c_user (qualname : string) (base : pyclass).

#[export] Instance pyclass_eq_dec : EqDecision pyclass.
Proof. solve_decision. Defined.

(** Method resolution order: [bool] derives from [int]. *)
Fixpoint mro (c : pyclass) : list pyclass :=
  match c with
  | c_object => [c_object]
  | c_bool => [c_bool; c_int; c_object]
  | c_user _ base => c :: mro base
  | _ => [c; c_object]
  end.

Definition class_name (c : pyclass) : string :=
  match c with
  | c_object => "object" | c_NoneType => "NoneType" | c_bool => "bool"
  | c_int => "int" | c_float => "float" | c_str => "str"
  | c_list => "list" | c_tuple => "tuple" | c_dict => "dict"
  | c_ndarray => "numpy.ndarray"
  | c_user qualname _ => qualname
  end.

(** [f"{cls}"] *)
Definition class_repr (c : pyclass) : string :=
  "<class '" +:+ class_name c +:+ "'>".

#[local] Unset Elimination Schemes.
Inductive pyobj : Type :=
| PyNone
| PyBool (b : bool)
| PyInt (z : Z)
| PyFloat (f : float)
| PyStr (s : string)
| PyList (xs : list pyobj)
| PyTuple (xs : list pyobj)
| PyDict (items : list (pyobj * pyobj))
| PyNdarray (a : ndarray float)
| PyInstance (qualname : string) (base : pyobj).
#[local] Set Elimination Schemes.

(** [type(v)]; an instance of a user class carries the value of the
    built-in class it derives from. *)
Fixpoint type_of (v : pyobj) : pyclass :=
  match v with
  | PyNone => c_NoneType
  | PyBool _ => c_bool
  | PyInt _ => c_int
  | PyFloat _ => c_float
  | PyStr _ => c_str
  | PyList _ => c_list
  | PyTuple _ => c_tuple
  | PyDict _ => c_dict
  | PyNdarray _ => c_ndarray
  | PyInstance qualname base => c_user qualname (type_of base)
  end.

(** [isinstance(v, (c1, ..., cn))] *)
Definition isinstance (v : pyobj) (classes : list pyclass) : bool :=
  existsb (fun c => bool_decide (c ∈ mro (type_of v))) classes.

End PyObj.

Import PyObj.

(** The file system and pickle, as far as [save_model] and [load_model]
    use them: external, an interface.  [FS] is the state of the file
    system and [Obj] the type of the pickled object. *)
Class Storage (FS Obj : Type) : Type := {
  (** [Path(p).mkdir(parents=True, exist_ok=True)] *)
  mkdir_parents : string -> M FS unit;
  (** [pickle.dump(obj, open(path, 'wb'))] *)
  pickle_dump : Obj -> string -> M FS unit;
  (** [pickle.load(open(path, 'rb'))] *)
  pickle_load : string -> M FS Obj
}.

(** ** class BaseElm *)

Module BaseElm.

(** [s[-n:]]: the last [n] characters, the whole string when it is
    shorter. *)
Definition py_last (n : nat) (s : string) : string :=
  let cs := String.list_ascii_of_string s in
  String.string_of_list_ascii (drop (length cs - n) cs).

(** The two lines [save_model] and [load_model] share:
    [if filename[-4:] != ".pkl": filename += ".pkl"]. *)
Definition pkl_filename (filename : string) : string :=
  if negb (String.eqb (py_last 4 filename) ".pkl")
  then filename +:+ ".pkl"
  else filename.

Definition save_model {FS Obj : Type} `{ST : !Storage FS Obj}
    (self : Obj) (save_path filename : string) : M FS unit :=
  (mkdir_parents save_path;;
   let filename := pkl_filename filename in
   pickle_dump self (save_path +:+ "/" +:+ filename))%py.

Definition load_model {FS Obj : Type} `{ST : !Storage FS Obj}
    (load_path filename : string) : M FS Obj :=
  let filename := pkl_filename filename in
  pickle_load (load_path +:+ "/" +:+ filename).

(** An estimator instance is its attribute dictionary. *)
Definition setattr (name : string) (v : pyobj) : M (gmap string pyobj) unit :=
  modify (fun self => <[name := v]> self).

Definition __init__ (layer_sizes act_name : pyobj) : M (gmap string pyobj) unit :=
  (* super().__init__() : BaseEstimator defines none, nothing happens *)
  (if negb (isinstance layer_sizes [c_list; c_tuple; c_ndarray; c_int])
   then raise (ValueError
          ("layer_sizes should be an int, list, tuple, or np.ndarray. Got "
           +:+ class_repr (type_of layer_sizes)))
   else
     setattr "layer_sizes"
       (if isinstance layer_sizes [c_list; c_tuple; c_ndarray]
        then layer_sizes else PyList [layer_sizes]);;
     setattr "act_name" act_name;;
     setattr "network" PyNone;;
     setattr "loss_train" PyNone;;
     setattr "n_labels" PyNone;;
     setattr "input_size" PyNone)%py.

End BaseElm.

(** ** class BaseMhaElm *)

Module BaseMhaElm.

(** *** Bounds.  The entries of a bound are numbers. *)

Inductive num : Type :=
| NInt (z : Z)
| NFloat (f : float).

(** What [_get_lb_ub] may receive for [lb] or [ub]: a list, a tuple, a
    one-dimensional array (int64 or float64), a bare int or float, or
    a value of any other class. *)
Inductive bound : Type :=
| BList (xs : list num)
| BTuple (xs : list num)
| BArrayInt (xs : list Z)
| BArrayFloat (xs : list float)
| BInt (z : Z)
| BFloat (f : float)
| BOther (c : pyclass).

(** [type(b) in (list, tuple, np.ndarray)] *)
Definition is_sequence (b : bound) : bool :=
  match b with
  | BList _ | BTuple _ | BArrayInt _ | BArrayFloat _ => true
  | _ => false
  end.

(** [type(b) in (int, float)] *)
Definition is_number (b : bound) : bool :=
  match b with
  | BInt _ | BFloat _ => true
  | _ => false
  end.

(** [len(b)] of a sequence *)
Definition seq_len (b : bound) : nat :=
  match b with
  | BList xs | BTuple xs => length xs
  | BArrayInt xs => length xs
  | BArrayFloat xs => length xs
  | _ => 0
  end.

(** [float(z)] of a Python int: rounded to nearest, and an
    OverflowError beyond the float64 range. *)
Definition float_of_int (z : Z) : result float :=
  let f := SF2Prim (SpecFloat.binary_normalize prec emax z 0 false) in
  if is_infinity f
  then Raise (OverflowError "int too large to convert to float")
  else Ok f.

Definition float_of_num (x : num) : result float :=
  match x with
  | NInt z => float_of_int z
  | NFloat f => Ok f
  end.

Fixpoint mapM {X Y} (f : X -> result Y) (xs : list X) : result (list Y) :=
  match xs with
  | [] => Ok []
  | x :: rest =>
      let? y := f x in
      let? ys := mapM f rest in
      Ok (y :: ys)
  end.

(** int64 arithmetic wraps around. *)
Definition wrap64 (z : Z) : Z :=
  ((z + 2 ^ 63) mod 2 ^ 64 - 2 ^ 63)%Z.

(** [b * n] for a Python int [n]: a list or a tuple is repeated, an
    array is multiplied entry by entry. *)
Definition times (b : bound) (n : Z) : result bound :=
  match b with
  | BList xs => Ok (BList (concat (replicate (Z.to_nat n) xs)))
  | BTuple xs => Ok (BTuple (concat (replicate (Z.to_nat n) xs)))
  | BArrayInt xs =>
      if ((- 2 ^ 63 <=? n) && (n <? 2 ^ 63))%Z
      then Ok (BArrayInt (map (fun x => wrap64 (x * n)) xs))
      else Raise (OverflowError "Python integer out of bounds for int64")
  | BArrayFloat xs =>
      let? k := float_of_int n in
      Ok (BArrayFloat (map (fun x => (x * k)%float) xs))
  | _ => Raise (TypeError "unsupported operand type(s) for *")
  end.

(** [np.array(b, dtype=float)] of a sequence *)
Definition np_array_float (b : bound) : result bound :=
  match b with
  | BList xs | BTuple xs =>
      let? fs := mapM float_of_num xs in Ok (BArrayFloat fs)
  | BArrayInt xs =>
      let? fs := mapM float_of_int xs in Ok (BArrayFloat fs)
  | BArrayFloat xs => Ok (BArrayFloat xs)
  | _ => Raise (TypeError "float() argument must be a string or a real number")
  end.

(** [float(b)] of a bare number *)
Definition py_float (b : bound) : result float :=
  match b with
  | BInt z => float_of_int z
  | BFloat f => Ok f
  | _ => Raise (TypeError "float() argument must be a string or a real number")
  end.

Definition _get_lb_ub (lb ub : bound) (problem_size : Z)
    : result (bound * bound) :=
  if is_sequence lb && is_sequence ub then
    if Nat.eqb (seq_len lb) (seq_len ub) then
      if Nat.eqb (seq_len lb) 1 then
        let? lb_n := times lb problem_size in
        let? lb' := np_array_float lb_n in
        let? ub_n := times ub problem_size in
        let? ub' := np_array_float ub_n in
        Ok (lb', ub')
      else if negb (Z.of_nat (seq_len lb) =? problem_size)%Z then
        Raise (ValueError "Invalid lb and ub. Their length should be equal to 1 or problem_size.")
      else Ok (lb, ub)
    else
      Raise (ValueError "Invalid lb and ub. They should have the same length.")
  else if is_number lb && is_number ub then
    let? l := py_float lb in
    let lb' := BTuple (concat (replicate (Z.to_nat problem_size) [NFloat l])) in
    let? u := py_float ub in
    let ub' := BTuple (concat (replicate (Z.to_nat problem_size) [NFloat u])) in
    Ok (lb', ub')
  else
    Raise (ValueError "Invalid lb and ub. They should be a number of list/tuple/np.ndarray with size equal to problem_size").

(** *** Objective direction.  The two catalogues come from
    [intelelm.utils.evaluator]; they map a metric name to its
    direction and enter as parameters. *)
Section Objective.

Context {V : Type}.
Variable SUPPORTED_REG_OBJECTIVES : gmap string V.
Variable SUPPORTED_CLS_OBJECTIVES : gmap string V.

(** [d[k]] on a dict *)
Definition subscript (d : gmap string V) (k : string) : result V :=
  match d !! k with
  | Some v => Ok v
  | None => Raise (KeyError k)
  end.

Definition _get_minmax (obj_name : option string) : result V :=
  match obj_name with
  | None => Raise (ValueError "obj_name can't be None")
  | Some name =>
      if bool_decide (name ∈ dom SUPPORTED_REG_OBJECTIVES) then
        subscript SUPPORTED_REG_OBJECTIVES name
      else if bool_decide (name ∈ dom SUPPORTED_CLS_OBJECTIVES) then
        subscript SUPPORTED_CLS_OBJECTIVES name
      else
        Raise (ValueError "obj_name is not supported. Please check the library: permetrics to see the supported objective function.")
  end.

End Objective.

(** [fitness_function]: the body is [pass], the call returns None and
    touches nothing. *)
Definition fitness_function {S X : Type} (solution : X) : M S pyobj :=
  ret PyNone.

(** *** The loss history *)

(** [np.array(rows)] of a list of one-dimensional rows: an empty list
    gives an empty one-dimensional array, rows of one length a matrix,
    rows of different lengths a ValueError. *)
Definition np_array_rows {A} (rows : list (list A)) : result (ndarray A) :=
  match rows with
  | [] => Ok (mk_ndarray [0] [])
  | r :: _ =>
      if forallb (fun r' => Nat.eqb (length r') (length r)) rows
      then Ok (mk_ndarray [length rows; length r] (concat rows))
      else Raise (ValueError "setting an array element with a sequence. The requested array has an inhomogeneous shape")
  end.

(** The first [block] entries of each of [n] consecutive rows of
    [row_len] entries. *)
Fixpoint first_of_each {A} (n row_len block : nat) (xs : list A) : list A :=
  match n with
  | 0 => []
  | S m => take block xs ++ first_of_each m row_len block (drop row_len xs)
  end.

(** [a[:, 0]] *)
Definition column0 {A} (a : ndarray A) : result (ndarray A) :=
  match shape a with
  | n :: k :: rest =>
      if Nat.eqb k 0
      then Raise (IndexError "index 0 is out of bounds for axis 1 with size 0")
      else Ok (mk_ndarray (n :: rest)
                 (first_of_each n (k * size_of rest) (size_of rest) (data a)))
  | _ => Raise (IndexError "too many indices for array")
  end.

(** [_get_history_loss(optimizer)].  Of the optimizer the method reads
    [history.list_global_best] and, of each agent in it,
    [target.objectives]: an optimizer is the list of these objective
    vectors, and None when the argument is left out. *)
Definition _get_history_loss {A} (optimizer : option (list (list A)))
    : result (ndarray A) :=
  match optimizer with
  | None => Raise (AttributeError "'NoneType' object has no attribute 'history'")
  | Some list_global_best =>
      let? global_obj_list := np_array_rows list_global_best in
      column0 global_obj_list
  end.

(** *** set_params *)

(** [s.startswith(p)] *)
Definition startswith (s p : string) : bool := String.prefix p s.

(** [s.split(sep)] for a separator that is not empty: the string is
    scanned from the left; at an occurrence of [sep] the piece read so
    far is closed and the rest of the occurrence skipped. *)
Fixpoint split_from (sep : string) (skip : nat) (piece : list Ascii.ascii)
    (s : string) : list string :=
  match s with
  | EmptyString => [String.string_of_list_ascii (rev piece)]
  | String c rest =>
      match skip with
      | S k => split_from sep k piece rest
      | 0 =>
          if String.prefix sep s
          then String.string_of_list_ascii (rev piece)
               :: split_from sep (String.length sep - 1) [] rest
          else split_from sep 0 (c :: piece) rest
      end
  end.

Definition py_split (sep s : string) : list string := split_from sep 0 [] s.

(** [k.split('__')[1]] *)
Definition optimizer_key (k : string) : result string :=
  match py_split "__" k !! 1 with
  | Some name => Ok name
  | None => Raise (IndexError "list index out of range")
  end.

Section Params.

(** An estimator, as far as [set_params] goes: the dictionary
    [optim_paras] and all its other attributes.  The [set_params] of the
    parent class (scikit-learn's) is external. *)
Context {V B : Type}.

Record estimator : Type := mk_estimator {
  optim_paras : gmap string V;
  others : B
}.

Variable super_set_params : list (string * V) -> M estimator unit.

(** [{k.split('__')[1]: v for k, v in params.items()
      if k.startswith('optim_paras__')}], built entry by entry. *)
Fixpoint optimizer_params_of (params : list (string * V))
    (acc : gmap string V) : result (gmap string V) :=
  match params with
  | [] => Ok acc
  | (k, v) :: rest =>
      if startswith k "optim_paras__"
      then let? name := optimizer_key k in
           optimizer_params_of rest (<[name := v]> acc)
      else optimizer_params_of rest acc
  end.

Definition set_params (params : list (string * V)) : M estimator unit :=
  (let* optimizer_params := lift (optimizer_params_of params ∅) in
   (if negb (bool_decide (optimizer_params = ∅))
    then modify (fun self =>
           mk_estimator (optimizer_params ∪ optim_paras self) (others self))
    else ret tt);;
   let super_params :=
     List.filter (fun kv => negb (startswith (fst kv) "optim_paras__")) params in
   super_set_params super_params)%py.

End Params.

End BaseMhaElm.

(** ** A float64 backend for running examples

    The general statements below hold for every implementation of the
    [Numpy] interface.  To run the code on concrete inputs the interface
    is instantiated on the kernel's binary64 floats: matrix product and
    broadcast addition of two-dimensional operands, the [relu]
    activation, the pseudoinverse of a 1x1 matrix, and a counter in the
    place of the bit generator.  The pseudoinverse of a larger matrix is
    not evaluated: the backend answers NotImplementedError there, and no
    statement in this file rests on that answer. *)

Module Float64.

Definition at_ (xs : list float) (i : nat) : float := nth i xs 0%float.

Definition dot_entry (k m : nat) (a b : list float) (i j : nat) : float :=
  fold_left (fun acc p => (acc + at_ a (i * k + p) * at_ b (p * m + j))%float)
            (seq 0 k) 0%float.

Definition dot (a b : ndarray float) : result (ndarray float) :=
  match shape a, shape b with
  | [n; k], [k'; m] =>
      if Nat.eqb k k'
      then Ok (mk_ndarray [n; m]
                 (flat_map (fun i => map (dot_entry k m (data a) (data b) i)
                                         (seq 0 m))
                           (seq 0 n)))
      else Raise (ValueError "shapes not aligned")
  | _, _ => Raise (ValueError "shapes not aligned")
  end.

(** A matrix of shape (n, m) plus a vector of shape (k,): numpy
    stretches an axis of length one. *)
Definition add (a b : ndarray float) : result (ndarray float) :=
  match shape a, shape b with
  | [n; m], [k] =>
      if Nat.eqb k m || Nat.eqb k 1 || Nat.eqb m 1 then
        let c := if Nat.eqb m 1 then k else m in
        Ok (mk_ndarray [n; c]
              (flat_map
                 (fun i =>
                    map (fun j =>
                           (at_ (data a) (i * m + (if Nat.eqb m 1 then 0 else j))
                            + at_ (data b) (if Nat.eqb k 1 then 0 else j))%float)
                        (seq 0 c))
                 (seq 0 n)))
      else Raise (ValueError "operands could not be broadcast together")
  | _, _ => Raise (ValueError "operands could not be broadcast together")
  end.

(** [np.maximum(0, x)] *)
Definition relu (a : ndarray float) : result (ndarray float) :=
  Ok (mk_ndarray (shape a)
        (map (fun x => if (x <? 0)%float then 0%float else x) (data a))).

(** [np.linalg.pinv] of a 1x1 matrix [[x]].  The only singular value is
    [|x|]; it is inverted when it exceeds the cutoff [rcond * |x|]
    (with [rcond] far below one) and replaced by zero otherwise, so the
    result is
    [[1 / x]] for a finite [x] other than zero and [[0]] for zero, an
    infinity or a NaN.  An array of fewer than two dimensions is
    refused with LinAlgError. *)
Definition pinv (a : ndarray float) : result (ndarray float) :=
  match shape a, data a with
  | [], _ =>
      Raise (LinAlgError "0-dimensional array given. Array must be at least two-dimensional")
  | [_], _ =>
      Raise (LinAlgError "1-dimensional array given. Array must be at least two-dimensional")
  | [1; 1], [x] =>
      Ok (mk_ndarray [1; 1]
            [if is_finite x && negb (is_zero x) then (1 / x)%float else 0%float])
  | _, _ => Raise (NotImplementedError "pseudoinverse of a matrix larger than 1x1")
  end.

Definition float_of_nat (n : nat) : float :=
  SF2Prim (SpecFloat.binary_normalize prec emax (Z.of_nat n) 0 false).

#[export] Instance backend : Numpy float nat nat := {|
  np_dot := dot;
  np_add := add;
  np_pinv := pinv;
  activation := fun name => if String.eqb name "relu" then Some relu else None;
  rng_of_seed := Z.to_nat;
  rng_of_entropy := fun e => e;
  rng_normal := fun g => (float_of_nat g, S g)
|}.

End Float64.

(** ** Auxiliary definitions of the proofs *)

(** The dimension by recursion on the topology. *)
Fixpoint ndim_from (input_size : nat) (sizes : list nat) : nat :=
  match sizes with
  | [] => 0
  | size :: rest => input_size * size + size + ndim_from size rest
  end.

(** A network with the given hidden parameters. *)
Definition network_of {A G E : Type} `{NP : !Numpy A G E}
    (sizes : list nat) (n : nat) (g : G)
    (f : ndarray A -> result (ndarray A))
    (ws bs : list (ndarray A)) : MultiLayerELM.t :=
  MultiLayerELM.mk sizes "relu" f g ws bs None (Some n).

Definition mat {A} (r c : nat) (xs : list A) : ndarray A := mk_ndarray [r; c] xs.

(** Inputs of the examples: one sample with one feature, one target. *)
Definition X_one : ndarray float := mat 1 1 [1%float].
Definition y_one : ndarray float := mat 1 1 [1%float].
Definition X_ten : ndarray float := mat 1 1 [10%float].

(** One input, one hidden unit: [get_ndim()] is 2. *)
Definition net_1_1 : @MultiLayerELM.t float nat :=
  network_of (NP := Float64.backend) [1] 1 0 Float64.relu
    [mat 1 1 [0%float]] [array1 [0%float]].

(** The objects [MultiLayerELM((1, 1), "relu", seed=1)] and
    [MultiLayerELM((), "relu", seed=1)] right after construction. *)
Definition net_two_layers : @MultiLayerELM.t float nat :=
  MultiLayerELM.mk [1; 1] "relu" Float64.relu 1 [] [] None None.
Definition net_no_layer : @MultiLayerELM.t float nat :=
  MultiLayerELM.mk [] "relu" Float64.relu 1 [] [] None None.

(** The zero candidate of [net_1_1]: on the input [[1]] its hidden
    representation is the singular matrix [[0]]. *)
Definition sol_zero : ndarray float := array1 [0%float; 0%float].

(** Two metric catalogues of one entry each. *)
Definition reg_catalog : gmap string string := {[ "MSE" := "min" ]}.
Definition cls_catalog : gmap string string := {[ "AS" := "max" ]}.

(** A store kept in a dictionary from paths to objects, for running
    [save_model] and [load_model]. *)
#[export] Instance dict_storage {Obj : Type} : Storage (gmap string Obj) Obj := {|
  mkdir_parents := fun _ => ret tt;
  pickle_dump := fun obj path => modify (fun fs => <[path := obj]> fs);
  pickle_load := fun path fs =>
    match fs !! path with
    | Some obj => (fs, Ok obj)
    | None => (fs, Raise (KeyError path))
    end
|}.

(** A two-layer network with its input size fixed and no parameters
    yet, and a one-layer network right after construction. *)
Definition net_two_layers_sized : @MultiLayerELM.t float nat :=
  network_of (NP := Float64.backend) [1; 1] 1 0 Float64.relu [] [].
Definition net_one_layer : @MultiLayerELM.t float nat :=
  MultiLayerELM.mk [1] "relu" Float64.relu 1 [] [] None None.

(** [type(b) is np.ndarray] *)
Definition is_array (b : BaseMhaElm.bound) : bool :=
  match b with
  | BaseMhaElm.BArrayInt _ | BaseMhaElm.BArrayFloat _ => true
  | _ => false
  end.

(** Whether [sep] occurs in [s]. *)
Fixpoint occurs (sep s : string) : bool :=
  String.prefix sep s ||
  match s with
  | EmptyString => false
  | String _ rest => occurs sep rest
  end.

(** * Properties *)

Ltac run_method :=
  unfold bind, ret, lift, raise, modify, get, rbind; simpl.

(** ** Arrays *)

Lemma size_of_matrix (r c : nat) : size_of [r; c] = r * c.
Proof. unfold size_of; simpl; lia. Qed.

Lemma size_of_vector (n : nat) : size_of [n] = n.
Proof. unfold size_of; simpl; lia. Qed.

Lemma slice_data {A} (v : ndarray A) (start stop : nat) :
  data (slice v start stop) = take (stop - start) (drop start (data v)).
Proof. reflexivity. Qed.

(** A slice is decided by the prefix of the vector that covers it. *)
Lemma slice_prefix {A} (v v' : ndarray A) (start stop m : nat) :
  stop <= m ->
  take m (data v) = take m (data v') ->
  slice v start stop = slice v' start stop.
Proof.
  intros Hle Heq. unfold slice. f_equal.
  destruct (decide (start <= stop)) as [Hs|Hs].
  - rewrite !take_drop_commute.
    replace (start + (stop - start)) with stop by lia.
    assert (Hp : take stop (data v) = take stop (data v')).
    { replace stop with (min stop m) by lia.
      rewrite <- !take_take. now rewrite Heq. }
    now rewrite Hp.
  - replace (stop - start) with 0 by lia. reflexivity.
Qed.

Lemma reshape_ok {A} (a : ndarray A) (sh : list nat) :
  length (data a) = size_of sh ->
  reshape a sh = Ok (mk_ndarray sh (data a)).
Proof. intros H. unfold reshape. now rewrite H, Nat.eqb_refl. Qed.

Lemma reshape_short {A} (a : ndarray A) (sh : list nat) :
  length (data a) <> size_of sh ->
  reshape a sh = Raise (ValueError "cannot reshape array").
Proof.
  intros H. unfold reshape.
  destruct (Nat.eqb_spec (length (data a)) (size_of sh)); [contradiction|reflexivity].
Qed.

(** ** The network *)

Section Network.

Context {A G E : Type} `{NP : !Numpy A G E}.
Import MultiLayerELM.
Local Abbreviation elm := (@MultiLayerELM.t A G).

Lemma draw_n_length (n : nat) (g : G) : length (fst (draw_n n g)) = n.
Proof.
  revert g. induction n as [|n IH]; intros g; simpl; [reflexivity|].
  destruct (rng_normal g) as [x g1]. specialize (IH g1).
  destruct (draw_n n g1) as [xs g2]. simpl in *. now rewrite IH.
Qed.

(** *** get_ndim *)

Lemma ndim_loop_from (sizes : list nat) (total n : nat) :
  ndim_loop sizes total (Some n) = Ok (total + ndim_from n sizes).
Proof.
  revert total n. induction sizes as [|size rest IH]; intros total n; simpl.
  - f_equal. lia.
  - rewrite IH. f_equal. lia.
Qed.

Lemma ndim_from_formula (n : nat) (sizes : list nat) :
  ndim_from n sizes = ndim_formula n sizes.
Proof.
  unfold ndim_formula. revert n.
  induction sizes as [|size rest IH]; intros n; [reflexivity|].
  cbn [ndim_from length]. rewrite IH.
  change (seq 0 (S (length rest))) with (0 :: seq 1 (length rest)).
  rewrite <- fmap_S_seq. cbn [map sum_list fan_in nth].
  unfold id. f_equal. f_equal.
  change (S <$> seq 0 (length rest)) with (map S (seq 0 (length rest))).
  rewrite map_map. apply map_ext. intros j. destruct j; reflexivity.
Qed.

Lemma get_ndim_formula (self : elm) (n : nat) :
  input_size self = Some n ->
  get_ndim self = Ok (ndim_formula n (layer_sizes self)).
Proof.
  intros Hn. unfold get_ndim. rewrite Hn, ndim_loop_from.
  now rewrite ndim_from_formula.
Qed.

(** *** _initialize_weights *)

Lemma initialize_loop_shaped (sizes : list nat) (n : nat) (self : elm) :
  exists ws bs g,
    initialize_loop sizes n self =
      (mk (layer_sizes self) (act_name self) (act_func self) g
          (weights self ++ ws) (biases self ++ bs) (beta self)
          (input_size self), Ok tt)
    /\ shaped n sizes ws bs.
Proof.
  revert n self. induction sizes as [|size rest IH]; intros n self.
  - exists [], [], (generator self). split; [|exact I].
    destruct self; run_method. now rewrite !app_nil_r.
  - cbn [initialize_loop]. unfold bind at 1. unfold standard_normal at 1.
    pose proof (draw_n_length (size_of [n; size]) (generator self)) as Hw.
    destruct (draw_n (size_of [n; size]) (generator self)) as [xs g1].
    unfold bind at 1. unfold standard_normal at 1.
    cbn [generator set_generator].
    pose proof (draw_n_length (size_of [size]) g1) as Hb.
    destruct (draw_n (size_of [size]) g1) as [ys g2].
    unfold append_weight, append_bias. run_method.
    match goal with |- context [initialize_loop rest size ?s] =>
      destruct (IH size s) as (ws & bs & g & Heq & Hsh); rewrite Heq
    end.
    exists (mk_ndarray [n; size] xs :: ws), (mk_ndarray [size] ys :: bs), g.
    split.
    + simpl. now rewrite <- !app_assoc.
    + rewrite size_of_matrix in Hw. rewrite size_of_vector in Hb.
      simpl in *. repeat split; assumption.
Qed.

Lemma initialize_weights_shaped (n : nat) (self : elm) :
  exists ws bs g,
    _initialize_weights n self =
      (mk (layer_sizes self) (act_name self) (act_func self) g
          ws bs (beta self) (input_size self), Ok tt)
    /\ shaped n (layer_sizes self) ws bs.
Proof.
  unfold _initialize_weights. run_method.
  match goal with |- context [initialize_loop ?l n ?s] =>
    destruct (initialize_loop_shaped l n s) as (ws & bs & g & Heq & Hsh)
  end.
  exists ws, bs, g. split; [|exact Hsh].
  rewrite Heq. reflexivity.
Qed.

(** *** encode *)

Lemma encode_blocked (self : elm) :
  weights self ++ biases self <> [] ->
  encode self =
    Ok (array1 (concat (map data (weights self)) ++ concat (map data (biases self)))).
Proof.
  intros Hne. unfold encode, concatenate.
  destruct (map flatten (weights self) ++ map flatten (biases self)) eqn:Hl.
  - exfalso. apply Hne. apply app_eq_nil in Hl as [Hw Hb].
    apply map_eq_nil in Hw, Hb. now rewrite Hw, Hb.
  - rewrite <- Hl. rewrite map_app, !map_map. simpl.
    rewrite concat_app. reflexivity.
Qed.

Lemma shaped_lengths (n : nat) (sizes : list nat) (ws bs : list (ndarray A)) :
  shaped n sizes ws bs ->
  length ws = length sizes /\ length bs = length sizes /\
  length (concat (map data ws)) + length (concat (map data bs)) = ndim_from n sizes /\
  length (interleaved ws bs) = ndim_from n sizes.
Proof.
  revert n ws bs. induction sizes as [|size rest IH]; intros n ws bs H.
  - destruct ws, bs; simpl in H; try contradiction. repeat split.
  - destruct ws as [|w ws], bs as [|b bs]; simpl in H; try contradiction.
    destruct H as (_ & Hw & _ & Hb & Hrest).
    destruct (IH _ _ _ Hrest) as (H1 & H2 & H3 & H4).
    simpl. rewrite !length_app, H1, H2, H4, Hw, Hb. repeat split; lia.
Qed.

(** Its shape and its buffer make an array. *)
Lemma shaped_unique (n : nat) (sizes : list nat) (ws bs ws' bs' : list (ndarray A)) :
  shaped n sizes ws bs ->
  shaped n sizes ws' bs' ->
  interleaved ws bs = interleaved ws' bs' ->
  ws = ws' /\ bs = bs'.
Proof.
  revert n ws bs ws' bs'. induction sizes as [|size rest IH];
    intros n ws bs ws' bs' H H' Heq.
  - destruct ws, bs, ws', bs'; simpl in *; try contradiction. now split.
  - destruct ws as [|w ws], bs as [|b bs], ws' as [|w' ws'], bs' as [|b' bs'];
      simpl in H, H'; try contradiction.
    destruct H as (Hs & Hw & Hsb & Hb & Hrest).
    destruct H' as (Hs' & Hw' & Hsb' & Hb' & Hrest').
    simpl in Heq.
    apply app_inj_1 in Heq as [Hdw Heq]; [|congruence].
    apply app_inj_1 in Heq as [Hdb Heq]; [|congruence].
    destruct (IH _ _ _ _ _ Hrest Hrest' Heq) as [-> ->].
    destruct w, w', b, b'; simpl in *. subst. now split.
Qed.

(** *** decode *)

Lemma last_le_ndim_from (n : nat) (sizes : list nat) :
  List.last sizes 0 <= ndim_from n sizes.
Proof.
  revert n. induction sizes as [|size rest IH]; intros n; [simpl; lia|].
  destruct rest as [|s rest'].
  - simpl. lia.
  - change (List.last (size :: s :: rest') 0) with (List.last (s :: rest') 0).
    specialize (IH size). cbn [ndim_from] in *. lia.
Qed.

(** One round of the loop of [decode]. *)
Lemma decode_loop_cons (sol : ndarray A) (size : nat) (rest : list nat)
    (start n : nat) (self : elm) :
  decode_loop sol (size :: rest) start (Some n) self =
    match reshape (slice sol start (start + n * size)) [n; size] with
    | Ok w =>
        decode_loop sol rest (start + n * size + size) (Some size)
          (mk (layer_sizes self) (act_name self) (act_func self) (generator self)
              (weights self ++ [w])
              (biases self ++ [slice sol (start + n * size) (start + n * size + size)])
              (beta self) (input_size self))
    | Raise e => (self, Raise e)
    end.
Proof.
  cbn [decode_loop]. unfold bind, lift, int_operand, append_weight, append_bias, modify.
  destruct (reshape (slice sol start (start + n * size)) [n; size]); reflexivity.
Qed.

Lemma weight_slice_ok (sol : ndarray A) (start n size : nat) :
  start + n * size <= length (data sol) ->
  reshape (slice sol start (start + n * size)) [n; size] =
    Ok (mk_ndarray [n; size] (take (n * size) (drop start (data sol)))).
Proof.
  intros Hle. rewrite reshape_ok.
  - rewrite slice_data. do 3 f_equal. lia.
  - rewrite slice_data, length_take, length_drop, size_of_matrix. lia.
Qed.

(** The loop reads the vector only below [start + ndim]. *)
Lemma decode_loop_prefix (sizes : list nat) (start n m : nat)
    (sol sol' : ndarray A) (self : elm) :
  start + ndim_from n sizes <= m ->
  take m (data sol) = take m (data sol') ->
  decode_loop sol sizes start (Some n) self =
  decode_loop sol' sizes start (Some n) self.
Proof.
  revert start n self. induction sizes as [|size rest IH];
    intros start n self Hle Heq; [reflexivity|].
  rewrite !decode_loop_cons. cbn [ndim_from] in Hle.
  rewrite (slice_prefix sol sol' start (start + n * size) m) by (assumption || lia).
  rewrite (slice_prefix sol sol' (start + n * size) (start + n * size + size) m)
    by (assumption || lia).
  destruct (reshape (slice sol' start (start + n * size)) [n; size]); [|reflexivity].
  apply IH; [lia|assumption].
Qed.

(** A vector that ends before the last weight block is complete makes
    [reshape] raise, in a network whose layers are not empty. *)
Lemma decode_loop_short (sizes : list nat) (start n : nat)
    (sol : ndarray A) (self : elm) :
  sizes <> [] ->
  0 < n ->
  Forall (fun size => 0 < size) sizes ->
  length (data sol) < start + ndim_from n sizes - List.last sizes 0 ->
  snd (decode_loop sol sizes start (Some n) self) =
    Raise (ValueError "cannot reshape array").
Proof.
  revert start n self. induction sizes as [|size rest IH];
    intros start n self Hne Hn Hpos Hlt; [contradiction|].
  apply Forall_cons in Hpos as [Hsize Hpos].
  rewrite decode_loop_cons.
  destruct (decide (length (data sol) < start + n * size)) as [Hs|Hs].
  - rewrite reshape_short; [reflexivity|].
    rewrite slice_data, length_take, length_drop, size_of_matrix. nia.
  - rewrite weight_slice_ok by lia.
    destruct rest as [|s rest'].
    + simpl in Hlt. lia.
    + apply IH; [discriminate|assumption|assumption|].
      change (List.last (size :: s :: rest') 0) with (List.last (s :: rest') 0) in Hlt.
      cbn [ndim_from] in *. lia.
Qed.

(** A vector that reaches the end of the last weight block passes the
    loop, even when the last bias slice comes out short. *)
Lemma decode_loop_ok (sizes : list nat) (start n : nat)
    (sol : ndarray A) (self : elm) :
  start + ndim_from n sizes - List.last sizes 0 <= length (data sol) ->
  snd (decode_loop sol sizes start (Some n) self) = Ok tt.
Proof.
  revert start n self. induction sizes as [|size rest IH];
    intros start n self Hle; [reflexivity|].
  rewrite decode_loop_cons.
  assert (Hw : start + n * size <= length (data sol)).
  { destruct rest as [|s rest'].
    - simpl in Hle. lia.
    - change (List.last (size :: s :: rest') 0) with (List.last (s :: rest') 0) in Hle.
      pose proof (last_le_ndim_from size (s :: rest')).
      cbn [ndim_from] in *. lia. }
  rewrite weight_slice_ok by lia.
  destruct rest as [|s rest'].
  - reflexivity.
  - apply IH. change (List.last (size :: s :: rest') 0) with (List.last (s :: rest') 0) in Hle.
    cbn [ndim_from] in *. lia.
Qed.

(** On a vector that holds all [ndim] entries the loop appends
    well-shaped parameters, read off layer by layer. *)
Lemma decode_loop_full (sizes : list nat) (start n : nat)
    (sol : ndarray A) (self : elm) :
  start + ndim_from n sizes <= length (data sol) ->
  exists ws bs,
    decode_loop sol sizes start (Some n) self =
      (mk (layer_sizes self) (act_name self) (act_func self) (generator self)
          (weights self ++ ws) (biases self ++ bs) (beta self)
          (input_size self), Ok tt)
    /\ shaped n sizes ws bs
    /\ interleaved ws bs = take (ndim_from n sizes) (drop start (data sol)).
Proof.
  revert start n self. induction sizes as [|size rest IH]; intros start n self Hle.
  - exists [], []. split; [|split; [exact I|reflexivity]].
    destruct self; simpl. unfold ret. now rewrite !app_nil_r.
  - rewrite decode_loop_cons. cbn [ndim_from] in Hle.
    rewrite weight_slice_ok by lia.
    match goal with |- context [decode_loop sol rest ?st (Some size) ?s] =>
      destruct (IH st size s) as (ws & bs & Heq & Hsh & Hil); [lia|rewrite Heq]
    end.
    exists (mk_ndarray [n; size] (take (n * size) (drop start (data sol))) :: ws),
           (slice sol (start + n * size) (start + n * size + size) :: bs).
    split; [|split].
    + simpl. now rewrite <- !app_assoc.
    + simpl. rewrite !length_take, !length_drop.
      repeat split; try lia; try (f_equal; lia). exact Hsh.
    + cbn [interleaved data ndim_from]. rewrite Hil, !slice_data.
      replace (start + n * size + size - (start + n * size)) with size by lia.
      rewrite <- (drop_drop (data sol) size (start + n * size)).
      rewrite <- (drop_drop (data sol) (n * size) start).
      rewrite take_take_drop, take_take_drop. f_equal. lia.
Qed.

Lemma decode_params_loop (sol : ndarray A) (self : elm) :
  decode_params sol self =
    decode_loop sol (layer_sizes self) 0 (input_size self)
      (mk (layer_sizes self) (act_name self) (act_func self) (generator self)
          [] [] (beta self) (input_size self)).
Proof. reflexivity. Qed.

(** Recomputing [beta] leaves the hidden parameters as they are,
    whether it succeeds or raises. *)
Lemma update_beta_keeps (X y : ndarray A) (self : elm) :
  weights (fst (update_beta X y self)) = weights self /\
  biases (fst (update_beta X y self)) = biases self /\
  layer_sizes (fst (update_beta X y self)) = layer_sizes self /\
  input_size (fst (update_beta X y self)) = input_size self.
Proof.
  unfold update_beta. run_method.
  destruct (_forward self X) as [H|e]; [|now repeat split].
  destruct (np_pinv H) as [P|e]; [|now repeat split].
  destruct (np_dot P y) as [b|e]; now repeat split.
Qed.

Lemma decode_keeps_params (sol X y : ndarray A) (self : elm) :
  weights (fst (decode sol X y self)) = weights (fst (decode_params sol self)) /\
  biases (fst (decode sol X y self)) = biases (fst (decode_params sol self)).
Proof.
  unfold decode, bind.
  destruct (decode_params sol self) as [self1 [[]|e]]; [|now split].
  destruct (update_beta_keeps X y self1) as (Hw & Hb & _). now split.
Qed.

Lemma decode_raises_with_params (sol X y : ndarray A) (self : elm) (e : exn) :
  snd (decode_params sol self) = Raise e ->
  snd (decode sol X y self) = Raise e.
Proof.
  unfold decode, bind. destruct (decode_params sol self) as [self1 [[]|e']];
    simpl; intros H; [discriminate|exact H].
Qed.

(** [decode] inverts the layer-by-layer layout, for every topology. *)
Lemma decode_params_interleaved (self : elm) (n : nat) (ws bs : list (ndarray A)) :
  input_size self = Some n ->
  shaped n (layer_sizes self) ws bs ->
  decode_params (array1 (interleaved ws bs)) self =
    (mk (layer_sizes self) (act_name self) (act_func self) (generator self)
        ws bs (beta self) (input_size self), Ok tt).
Proof.
  intros Hn Hsh. rewrite decode_params_loop, Hn.
  destruct (shaped_lengths _ _ _ _ Hsh) as (_ & _ & _ & Hlen).
  match goal with |- decode_loop ?v ?l 0 _ ?s = _ =>
    destruct (decode_loop_full l 0 n v s) as (ws' & bs' & Heq & Hsh' & Hil)
  end.
  { simpl. lia. }
  rewrite Heq. cbn [array1 data] in Hil. rewrite drop_0 in Hil.
  rewrite take_ge in Hil by lia.
  destruct (shaped_unique _ _ _ _ _ _ Hsh' Hsh Hil) as [-> ->].
  reflexivity.
Qed.

(** With one hidden layer the vector of [encode] is the layer-by-layer
    layout, and [decode] restores the parameters from it. *)
Lemma roundtrip_single_layer (self : elm) (n size : nat) (w b : ndarray A) :
  input_size self = Some n ->
  layer_sizes self = [size] ->
  weights self = [w] ->
  biases self = [b] ->
  shaped n [size] [w] [b] ->
  exists v,
    encode self = Ok v /\
    fst (decode_params v self) = self.
Proof.
  intros Hn Hl Hw Hb Hsh.
  exists (array1 (interleaved [w] [b])). split.
  - rewrite encode_blocked by (rewrite Hw; discriminate).
    rewrite Hw, Hb. simpl. now rewrite !app_nil_r.
  - rewrite (decode_params_interleaved self n [w] [b] Hn) by (now rewrite Hl).
    destruct self; simpl in *. now subst.
Qed.

(** *** fit *)

Lemma fit_steps (X y : ndarray A) (self : elm) (n : nat) :
  shape X !! 1 = Some n ->
  exists ws bs g,
    shaped n (layer_sizes self) ws bs /\
    fit X y self =
      update_beta X y
        (mk (layer_sizes self) (act_name self) (act_func self) g
            ws bs (beta self) (Some n)).
Proof.
  intros HX. unfold fit, shape_at. rewrite HX.
  destruct (initialize_weights_shaped n (set_input_size (Some n) self))
    as (ws & bs & g & Heq & Hsh).
  exists ws, bs, g. split; [exact Hsh|].
  unfold bind, lift, modify. cbv beta iota. rewrite Heq. reflexivity.
Qed.

Lemma fit_initializes (X y : ndarray A) (self : elm) (n : nat) :
  shape X !! 1 = Some n ->
  layer_sizes (fst (fit X y self)) = layer_sizes self /\
  input_size (fst (fit X y self)) = Some n /\
  shaped n (layer_sizes self)
    (weights (fst (fit X y self))) (biases (fst (fit X y self))).
Proof.
  intros HX.
  destruct (fit_steps X y self n HX) as (ws & bs & g & Hsh & ->).
  match goal with |- context [update_beta X y ?s] =>
    destruct (update_beta_keeps X y s) as (Hw & Hb & Hl & Hi)
  end.
  rewrite Hw, Hb, Hl, Hi. simpl. auto.
Qed.

(** *** The claims on the network *)

(** C1, at an input where the code departs from it: a network with two
    hidden layers of one unit each on one input, weights [[a]] and
    [[b]], biases [c] and [d].  [encode] returns [a, b, c, d] (all
    weights, then all biases); [decode] reads a vector layer by layer,
    so from that vector it restores the weights [[a]] and [[c]] and the
    biases [b] and [d]: the second weight and the first bias are
    exchanged, and the round trip fails whenever [b] and [c] differ. *)
Theorem roundtrip_breaks_two_layers (g : G) (f : ndarray A -> result (ndarray A))
    (a b c d : A) (X y : ndarray A) :
  let net := network_of [1; 1] 1 g f
               [mat 1 1 [a]; mat 1 1 [b]] [array1 [c]; array1 [d]] in
  shaped 1 [1; 1] (weights net) (biases net) /\
  encode net = Ok (array1 [a; b; c; d]) /\
  weights (fst (decode (array1 [a; b; c; d]) X y net))
    = [mat 1 1 [a]; mat 1 1 [c]] /\
  biases (fst (decode (array1 [a; b; c; d]) X y net))
    = [array1 [b]; array1 [d]] /\
  (b <> c -> weights (fst (decode (array1 [a; b; c; d]) X y net)) <> weights net).
Proof.
  intros net.
  assert (Hw : weights (fst (decode (array1 [a; b; c; d]) X y net))
               = [mat 1 1 [a]; mat 1 1 [c]]).
  { destruct (decode_keeps_params (array1 [a; b; c; d]) X y net) as [-> _].
    reflexivity. }
  split; [|split; [|split; [|split]]].
  - simpl. repeat split.
  - reflexivity.
  - exact Hw.
  - destruct (decode_keeps_params (array1 [a; b; c; d]) X y net) as [_ ->].
    reflexivity.
  - intros Hne Heq. rewrite Hw in Heq. apply Hne.
    subst net. unfold network_of, mat in Heq. simpl in Heq. congruence.
Qed.

(** C2, at an input where the code departs from it: for the same
    two-layer network the vector of [encode] is [a, b, c, d], the two
    weight matrices followed by the two bias vectors, while the layout
    of the claim, each layer's weights followed by that layer's biases,
    is [a, c, b, d]; the latter is the one [decode] consumes. *)
Theorem encode_layout_two_layers (g : G) (f : ndarray A -> result (ndarray A))
    (a b c d : A) :
  let net := network_of [1; 1] 1 g f
               [mat 1 1 [a]; mat 1 1 [b]] [array1 [c]; array1 [d]] in
  encode net = Ok (array1 [a; b; c; d]) /\
  interleaved (weights net) (biases net) = [a; c; b; d] /\
  decode_params (array1 [a; c; b; d]) net = (net, Ok tt).
Proof. intros net. repeat split. Qed.

(** C3, as the code has it: there is no policy for a degenerate hidden
    representation.  Once the parameters of a candidate are decoded and
    the forward pass has given [H], [decode] takes whatever
    [np.linalg.pinv(H)] does: an exception it raises leaves [decode]
    unchanged, the candidate's weights and biases already written and
    [beta] as it was; a matrix it returns is used for [beta] without any
    test of [H], and [decode] returns normally.  And
    [BaseMhaElm.fitness_function] is an empty placeholder that returns
    None.  No sentinel fitness value is produced. *)
Theorem decode_has_no_degeneracy_policy (self self1 : elm)
    (sol X y H : ndarray A) :
  decode_params sol self = (self1, Ok tt) ->
  _forward self1 X = Ok H ->
  (forall e, np_pinv H = Raise e -> decode sol X y self = (self1, Raise e)) /\
  (forall P b,
     np_pinv H = Ok P ->
     np_dot P y = Ok b ->
     decode sol X y self = (set_beta (Some b) self1, Ok tt)) /\
  (forall P e,
     np_pinv H = Ok P ->
     np_dot P y = Raise e ->
     decode sol X y self = (self1, Raise e)) /\
  BaseMhaElm.fitness_function sol self = (self, Ok PyNone).
Proof.
  intros Hp Hf.
  assert (Hd : decode sol X y self = update_beta X y self1).
  { unfold decode, bind. now rewrite Hp. }
  rewrite Hd. unfold update_beta. run_method. rewrite Hf. simpl.
  split; [|split; [|split; [|reflexivity]]].
  - intros e He. now rewrite He.
  - intros P b HP Hb. rewrite HP. simpl. now rewrite Hb.
  - intros P e HP Hb. rewrite HP. simpl. now rewrite Hb.
Qed.

(** C4, as the code has it: [decode] checks no length.  In a network
    with a fixed input size,
    - [decode] never looks beyond the first [get_ndim()] entries: two
      vectors that agree on them are decoded alike, so the tail of a
      longer vector is silently ignored;
    - a vector with at least [get_ndim()] entries decodes into
      well-shaped parameters read layer by layer from its first
      [get_ndim()] entries;
    - a vector that reaches [get_ndim()] minus the last layer size
      passes the parameter loop (when it is short only within the last
      bias slice, the last bias comes out short);
    - when the input size and the layer sizes are positive, a vector
      shorter than that makes [reshape] raise its shape-mismatch
      ValueError. *)
Theorem decode_checks_no_length (self : elm) (n : nat) (sol : ndarray A) :
  input_size self = Some n ->
  get_ndim self = Ok (ndim_formula n (layer_sizes self)) /\
  (forall sol' X y,
     take (ndim_formula n (layer_sizes self)) (data sol)
       = take (ndim_formula n (layer_sizes self)) (data sol') ->
     decode sol X y self = decode sol' X y self) /\
  (ndim_formula n (layer_sizes self) <= length (data sol) ->
   exists ws bs,
     decode_params sol self =
       (mk (layer_sizes self) (act_name self) (act_func self) (generator self)
           ws bs (beta self) (input_size self), Ok tt) /\
     shaped n (layer_sizes self) ws bs /\
     interleaved ws bs = take (ndim_formula n (layer_sizes self)) (data sol)) /\
  (ndim_formula n (layer_sizes self) - List.last (layer_sizes self) 0 <= length (data sol) ->
   snd (decode_params sol self) = Ok tt) /\
  (layer_sizes self <> [] ->
   0 < n ->
   Forall (fun size => 0 < size) (layer_sizes self) ->
   length (data sol) < ndim_formula n (layer_sizes self) - List.last (layer_sizes self) 0 ->
   forall X y, snd (decode sol X y self) = Raise (ValueError "cannot reshape array")).
Proof.
  intros Hn. rewrite <- !ndim_from_formula.
  split; [|split; [|split; [|split]]].
  - rewrite get_ndim_formula with (n := n) by assumption.
    now rewrite ndim_from_formula.
  - intros sol' X y Heq. unfold decode, bind.
    rewrite !decode_params_loop, Hn.
    now rewrite (decode_loop_prefix _ 0 n _ sol sol' _ (Nat.le_refl _) Heq).
  - intros Hle. rewrite decode_params_loop, Hn.
    match goal with |- context [decode_loop sol ?l 0 _ ?s] =>
      destruct (decode_loop_full l 0 n sol s) as (ws & bs & Heq & Hsh & Hil);
        [simpl; lia|]
    end.
    exists ws, bs. rewrite drop_0 in Hil. now rewrite Heq.
  - intros Hle. rewrite decode_params_loop, Hn. now apply decode_loop_ok.
  - intros Hne Hpos Hall Hlt X y. apply decode_raises_with_params.
    rewrite decode_params_loop, Hn. now apply decode_loop_short.
Qed.


End Network.

(** ** The bounds resolver *)

Section Bounds.

Import BaseMhaElm.

Lemma concat_replicate_singleton {X} (n : nat) (x : X) :
  concat (replicate n [x]) = replicate n x.
Proof. induction n as [|n IH]; simpl; [reflexivity|now rewrite IH]. Qed.

Lemma mapM_replicate {X Y} (f : X -> result Y) (n : nat) (x : X) (y : Y) :
  f x = Ok y -> mapM f (replicate n x) = Ok (replicate n y).
Proof.
  intros Hf. induction n as [|n IH]; simpl; [reflexivity|].
  now rewrite Hf, IH.
Qed.

(** A list or a tuple with one entry is tiled: both results are float
    arrays of length [problem_size] filled with that entry. *)
Lemma get_lb_ub_tiles_lists (lb ub : bound) (a b : num) (fa fb : float)
    (problem_size : Z) :
  lb = BList [a] \/ lb = BTuple [a] ->
  ub = BList [b] \/ ub = BTuple [b] ->
  float_of_num a = Ok fa ->
  float_of_num b = Ok fb ->
  _get_lb_ub lb ub problem_size =
    Ok (BArrayFloat (replicate (Z.to_nat problem_size) fa),
        BArrayFloat (replicate (Z.to_nat problem_size) fb)).
Proof.
  intros Hlb Hub Ha Hb.
  destruct Hlb as [-> | ->], Hub as [-> | ->]; unfold _get_lb_ub; simpl;
    rewrite !concat_replicate_singleton;
    rewrite (mapM_replicate _ _ _ _ Ha), (mapM_replicate _ _ _ _ Hb);
    reflexivity.
Qed.

Example get_lb_ub_tiles_tuple_55 :
  _get_lb_ub (BTuple [NInt (-1)]) (BTuple [NInt 1]) 55 =
    Ok (BArrayFloat (replicate 55 (-1)%float), BArrayFloat (replicate 55 1%float)).
Proof. vm_compute. reflexivity. Qed.

(** C5, at the input where the code departs from it: bounds given as
    one-entry numpy arrays.  [lb * problem_size] multiplies an array
    entry by entry instead of repeating it, so for
    [lb = np.array([-1.0])], [ub = np.array([1.0])] and
    [problem_size = 55] the resolver returns the one-entry arrays
    [[-55.0]] and [[55.0]], not 55 copies of [-1.0] and of [1.0]. *)
Theorem get_lb_ub_array_not_tiled :
  _get_lb_ub (BArrayFloat [(-1)%float]) (BArrayFloat [1%float]) 55 =
    Ok (BArrayFloat [(-55)%float], BArrayFloat [55%float])
  /\ _get_lb_ub (BArrayInt [(-1)%Z]) (BArrayInt [1%Z]) 55 =
    Ok (BArrayFloat [(-55)%float], BArrayFloat [55%float]).
Proof. split; vm_compute; reflexivity. Qed.

(** The same for every one-entry float array: the result has one entry. *)
Lemma get_lb_ub_array_keeps_length (x y k : float) (problem_size : Z) :
  float_of_int problem_size = Ok k ->
  _get_lb_ub (BArrayFloat [x]) (BArrayFloat [y]) problem_size =
    Ok (BArrayFloat [(x * k)%float], BArrayFloat [(y * k)%float]).
Proof. intros Hk. unfold _get_lb_ub. simpl. rewrite Hk. reflexivity. Qed.

(** C6: when [lb] and [ub] are sequences (list, tuple or array) of
    different lengths, [_get_lb_ub] raises the ValueError that reports
    the length mismatch, whatever [problem_size] is: nothing is
    broadcast, cut or padded. *)
Theorem get_lb_ub_length_mismatch (lb ub : bound) (problem_size : Z) :
  is_sequence lb = true ->
  is_sequence ub = true ->
  seq_len lb <> seq_len ub ->
  _get_lb_ub lb ub problem_size =
    Raise (ValueError "Invalid lb and ub. They should have the same length.").
Proof.
  intros Hl Hu Hne. unfold _get_lb_ub. rewrite Hl, Hu. simpl.
  destruct (Nat.eqb_spec (seq_len lb) (seq_len ub)); [contradiction|reflexivity].
Qed.

Lemma get_lb_ub_length_mismatch_witness :
  is_sequence (BTuple [NInt (-1); NInt (-2)]) = true /\
  is_sequence (BTuple [NInt 1]) = true /\
  seq_len (BTuple [NInt (-1); NInt (-2)]) <> seq_len (BTuple [NInt 1]) /\
  _get_lb_ub (BTuple [NInt (-1); NInt (-2)]) (BTuple [NInt 1]) 55 =
    Raise (ValueError "Invalid lb and ub. They should have the same length.").
Proof.
  assert (H : seq_len (BTuple [NInt (-1); NInt (-2)]) <> seq_len (BTuple [NInt 1]))
    by (simpl; lia).
  split; [reflexivity|]. split; [reflexivity|]. split; [exact H|].
  apply (get_lb_ub_length_mismatch (BTuple [NInt (-1); NInt (-2)])
           (BTuple [NInt 1]) 55); [reflexivity|reflexivity|exact H].
Defined.

End Bounds.

(** ** The network on concrete inputs *)

Section Examples.

Import MultiLayerELM.
#[local] Existing Instance Float64.backend.

Example init_two_layers :
  __init__ (NP := Float64.backend) 0 [1; 1] "relu" (Some 1%Z) = Ok net_two_layers.
Proof. reflexivity. Qed.

Example init_no_layer :
  __init__ (NP := Float64.backend) 7 [] "relu" (Some 1%Z) = Ok net_no_layer.
Proof. reflexivity. Qed.

(** The generator is part of the object: fitting the same object again
    draws new weights. *)
Example refit_draws_new_weights :
  weights (fst (fit X_one y_one net_two_layers))
    = [mat 1 1 [1%float]; mat 1 1 [3%float]] /\
  weights (fst (fit X_one y_one (fst (fit X_one y_one net_two_layers))))
    = [mat 1 1 [5%float]; mat 1 1 [7%float]].
Proof. split; vm_compute; reflexivity. Qed.

(** A network drawn by [fit] does not survive the round trip when it
    has two hidden layers. *)
Example roundtrip_breaks_after_fit :
  encode (fst (fit X_one y_one net_two_layers))
    = Ok (array1 [1%float; 3%float; 2%float; 4%float]) /\
  weights (fst (decode (array1 [1%float; 3%float; 2%float; 4%float]) X_one y_one
                  (fst (fit X_one y_one net_two_layers))))
    = [mat 1 1 [1%float]; mat 1 1 [2%float]] /\
  biases (fst (decode (array1 [1%float; 3%float; 2%float; 4%float]) X_one y_one
                 (fst (fit X_one y_one net_two_layers))))
    = [array1 [3%float]; array1 [4%float]].
Proof. repeat split; vm_compute; reflexivity. Qed.

(** C3 fails on the code: the zero candidate on the input [[1]] has the
    singular hidden representation [[0]].  Its pseudoinverse is [[0]],
    [decode] returns normally with [beta = [[0]]] as for any other
    candidate, and the placeholder [fitness_function] returns None: no
    sentinel fitness value appears. *)
Lemma singular_candidate_gets_no_sentinel :
  decode_params sol_zero net_1_1 = (net_1_1, Ok tt) /\
  _forward net_1_1 X_one = Ok (mat 1 1 [0%float]) /\
  np_pinv (mat 1 1 [0%float]) = Ok (mat 1 1 [0%float]) /\
  decode sol_zero X_one y_one net_1_1
    = (set_beta (Some (mat 1 1 [0%float])) net_1_1, Ok tt) /\
  BaseMhaElm.fitness_function sol_zero net_1_1 = (net_1_1, Ok PyNone).
Proof. repeat split; vm_compute; reflexivity. Qed.

Lemma decode_has_no_degeneracy_policy_witness :
  decode_params sol_zero net_1_1 = (net_1_1, Ok tt) /\
  _forward net_1_1 X_one = Ok (mat 1 1 [0%float]) /\
  decode sol_zero X_one y_one net_1_1
    = (set_beta (Some (mat 1 1 [0%float])) net_1_1, Ok tt) /\
  BaseMhaElm.fitness_function sol_zero net_1_1 = (net_1_1, Ok PyNone).
Proof.
  assert (H1 : decode_params sol_zero net_1_1 = (net_1_1, Ok tt))
    by (vm_compute; reflexivity).
  assert (H2 : _forward net_1_1 X_one = Ok (mat 1 1 [0%float]))
    by (vm_compute; reflexivity).
  split; [exact H1|]. split; [exact H2|].
  destruct (decode_has_no_degeneracy_policy net_1_1 net_1_1 sol_zero
              X_one y_one (mat 1 1 [0%float]) H1 H2)
    as (_ & Hok & _ & Hnone).
  split; [|exact Hnone].
  apply (Hok (mat 1 1 [0%float]) (mat 1 1 [0%float]));
    vm_compute; reflexivity.
Defined.

(** C4 fails on the code: the network has dimension 2, the vector
    [1, 0, 7] has three entries, and [decode] returns normally with the
    weight [[1]], the bias [0] and a fresh [beta]; the entry 7 is
    dropped. *)
Lemma decode_accepts_longer_vector :
  get_ndim net_1_1 = Ok 2 /\
  length (data (array1 [1%float; 0%float; 7%float])) = 3 /\
  snd (decode (array1 [1%float; 0%float; 7%float]) X_one y_one net_1_1) = Ok tt /\
  weights (fst (decode (array1 [1%float; 0%float; 7%float]) X_one y_one net_1_1))
    = [mat 1 1 [1%float]] /\
  biases (fst (decode (array1 [1%float; 0%float; 7%float]) X_one y_one net_1_1))
    = [array1 [0%float]] /\
  beta (fst (decode (array1 [1%float; 0%float; 7%float]) X_one y_one net_1_1))
    = Some (mat 1 1 [1%float]).
Proof. repeat split; vm_compute; reflexivity. Qed.

Lemma decode_checks_no_length_witness :
  input_size net_1_1 = Some 1 /\
  decode (array1 [1%float; 0%float; 7%float]) X_one y_one net_1_1
    = decode (array1 [1%float; 0%float]) X_one y_one net_1_1 /\
  snd (decode (array1 []) X_one y_one net_1_1)
    = Raise (ValueError "cannot reshape array").
Proof.
  assert (H1 : input_size net_1_1 = Some 1) by reflexivity.
  split; [exact H1|]. split.
  - destruct (decode_checks_no_length net_1_1 1
                (array1 [1%float; 0%float; 7%float]) H1)
      as (_ & Hprefix & _).
    apply Hprefix. reflexivity.
  - destruct (decode_checks_no_length net_1_1 1 (array1 []) H1)
      as (_ & _ & _ & _ & Hshort).
    apply Hshort.
    + discriminate.
    + lia.
    + repeat constructor.
    + vm_compute. lia.
Defined.



End Examples.

(** ** The objective resolver *)

Section Objective.

Import BaseMhaElm.
Context {V : Type}.

(** C7: [_get_minmax] raises on None; it returns the direction the
    regression catalogue gives the name, and otherwise the one the
    classification catalogue gives it; for a name in neither catalogue
    it raises the ValueError that points to the permetrics catalogue. *)
Theorem get_minmax_resolution (reg cls : gmap string V) :
  _get_minmax reg cls None = Raise (ValueError "obj_name can't be None") /\
  (forall name d,
     reg !! name = Some d -> _get_minmax reg cls (Some name) = Ok d) /\
  (forall name d,
     reg !! name = None -> cls !! name = Some d ->
     _get_minmax reg cls (Some name) = Ok d) /\
  (forall name,
     reg !! name = None -> cls !! name = None ->
     _get_minmax reg cls (Some name) =
       Raise (ValueError "obj_name is not supported. Please check the library: permetrics to see the supported objective function.")).
Proof.
  split; [reflexivity|]. unfold _get_minmax, subscript.
  split; [|split].
  - intros name d Hr.
    rewrite bool_decide_eq_true_2 by (apply elem_of_dom; eauto).
    now rewrite Hr.
  - intros name d Hr Hc.
    rewrite bool_decide_eq_false_2 by (rewrite elem_of_dom, Hr; intros [? ?]; discriminate).
    rewrite bool_decide_eq_true_2 by (apply elem_of_dom; eauto).
    now rewrite Hc.
  - intros name Hr Hc.
    rewrite bool_decide_eq_false_2 by (rewrite elem_of_dom, Hr; intros [? ?]; discriminate).
    rewrite bool_decide_eq_false_2 by (rewrite elem_of_dom, Hc; intros [? ?]; discriminate).
    reflexivity.
Qed.

End Objective.

Lemma get_minmax_resolution_witness :
  BaseMhaElm._get_minmax reg_catalog cls_catalog (Some "MSE") = Ok "min" /\
  BaseMhaElm._get_minmax reg_catalog cls_catalog (Some "AS") = Ok "max" /\
  BaseMhaElm._get_minmax reg_catalog cls_catalog (Some "XYZ") =
    Raise (ValueError "obj_name is not supported. Please check the library: permetrics to see the supported objective function.").
Proof.
  destruct (get_minmax_resolution reg_catalog cls_catalog) as (_ & Hreg & Hcls & Hno).
  split; [|split].
  - apply Hreg. reflexivity.
  - apply Hcls; reflexivity.
  - apply Hno; reflexivity.
Defined.

(** ** The estimator constructor *)

Section Estimator.

Import BaseElm.

Lemma init_stores (self : gmap string pyobj) (layer_sizes act_name : pyobj) :
  isinstance layer_sizes [c_list; c_tuple; c_ndarray; c_int] = true ->
  snd (__init__ layer_sizes act_name self) = Ok tt /\
  fst (__init__ layer_sizes act_name self) !! "layer_sizes" =
    Some (if isinstance layer_sizes [c_list; c_tuple; c_ndarray]
          then layer_sizes else PyList [layer_sizes]).
Proof.
  intros H. unfold __init__. rewrite H. unfold setattr. run_method.
  split; [reflexivity|].
  rewrite !lookup_insert_ne by discriminate. apply lookup_insert_eq.
Qed.

Lemma init_rejects (self : gmap string pyobj) (layer_sizes act_name : pyobj) :
  isinstance layer_sizes [c_list; c_tuple; c_ndarray; c_int] = false ->
  __init__ layer_sizes act_name self =
    (self, Raise (ValueError
       ("layer_sizes should be an int, list, tuple, or np.ndarray. Got "
        +:+ class_repr (type_of layer_sizes)))).
Proof. intros H. unfold __init__. rewrite H. reflexivity. Qed.

Lemma isinstance_sequence_or_int (v : pyobj) :
  isinstance v [c_list; c_tuple; c_ndarray; c_int] =
    isinstance v [c_list; c_tuple; c_ndarray] || isinstance v [c_int].
Proof.
  unfold isinstance. cbn [existsb]. rewrite !orb_false_r, !orb_assoc.
  reflexivity.
Qed.

(** C10: the constructor of [BaseElm] keeps a list, a tuple or an array
    as it is, wraps an int into a one-element list, and for a value of
    any other class (a str, a float, a dict, ...) raises the ValueError
    that names the class, before any attribute is set.  "Is an int" and
    the like are [isinstance] tests: instances of subclasses count. *)
Theorem layer_sizes_normalization (self : gmap string pyobj)
    (layer_sizes act_name : pyobj) :
  (isinstance layer_sizes [c_list; c_tuple; c_ndarray] = true ->
   snd (__init__ layer_sizes act_name self) = Ok tt /\
   fst (__init__ layer_sizes act_name self) !! "layer_sizes" = Some layer_sizes) /\
  (isinstance layer_sizes [c_list; c_tuple; c_ndarray] = false ->
   isinstance layer_sizes [c_int] = true ->
   snd (__init__ layer_sizes act_name self) = Ok tt /\
   fst (__init__ layer_sizes act_name self) !! "layer_sizes"
     = Some (PyList [layer_sizes])) /\
  (isinstance layer_sizes [c_list; c_tuple; c_ndarray] = false ->
   isinstance layer_sizes [c_int] = false ->
   __init__ layer_sizes act_name self =
     (self, Raise (ValueError
        ("layer_sizes should be an int, list, tuple, or np.ndarray. Got "
         +:+ class_repr (type_of layer_sizes))))) /\
  (forall z, fst (__init__ (PyInt z) act_name self) !! "layer_sizes"
             = Some (PyList [PyInt z])) /\
  (forall xs, fst (__init__ (PyList xs) act_name self) !! "layer_sizes"
              = Some (PyList xs)) /\
  (forall xs, fst (__init__ (PyTuple xs) act_name self) !! "layer_sizes"
              = Some (PyTuple xs)) /\
  (forall a, fst (__init__ (PyNdarray a) act_name self) !! "layer_sizes"
             = Some (PyNdarray a)) /\
  (forall s, __init__ (PyStr s) act_name self =
     (self, Raise (ValueError
        "layer_sizes should be an int, list, tuple, or np.ndarray. Got <class 'str'>"))) /\
  (forall f, __init__ (PyFloat f) act_name self =
     (self, Raise (ValueError
        "layer_sizes should be an int, list, tuple, or np.ndarray. Got <class 'float'>"))) /\
  (forall items, __init__ (PyDict items) act_name self =
     (self, Raise (ValueError
        "layer_sizes should be an int, list, tuple, or np.ndarray. Got <class 'dict'>"))).
Proof.
  split; [|split; [|split]].
  - intros Hs.
    destruct (init_stores self layer_sizes act_name) as [Hr Hl].
    { rewrite isinstance_sequence_or_int, Hs. reflexivity. }
    rewrite Hs in Hl. now split.
  - intros Hs Hi.
    destruct (init_stores self layer_sizes act_name) as [Hr Hl].
    { rewrite isinstance_sequence_or_int, Hs, Hi. reflexivity. }
    rewrite Hs in Hl. now split.
  - intros Hs Hi. apply init_rejects.
    rewrite isinstance_sequence_or_int, Hs, Hi. reflexivity.
  - repeat split; intros; try reflexivity;
      match goal with |- fst (__init__ ?v _ _) !! _ = _ =>
        destruct (init_stores self v act_name) as [_ Hl]; [reflexivity|exact Hl]
      end.
Qed.

Lemma layer_sizes_normalization_witness :
  isinstance (PyBool true) [c_list; c_tuple; c_ndarray] = false /\
  isinstance (PyBool true) [c_int] = true /\
  snd (__init__ (PyBool true) (PyStr "relu") ∅) = Ok tt /\
  fst (__init__ (PyBool true) (PyStr "relu") ∅) !! "layer_sizes"
    = Some (PyList [PyBool true]) /\
  __init__ PyNone (PyStr "relu") ∅ =
    (∅, Raise (ValueError
       "layer_sizes should be an int, list, tuple, or np.ndarray. Got <class 'NoneType'>")).
Proof.
  assert (H1 : isinstance (PyBool true) [c_list; c_tuple; c_ndarray] = false)
    by reflexivity.
  assert (H2 : isinstance (PyBool true) [c_int] = true) by reflexivity.
  split; [exact H1|]. split; [exact H2|].
  destruct (layer_sizes_normalization ∅ (PyBool true) (PyStr "relu"))
    as (_ & Hint & _).
  destruct (layer_sizes_normalization ∅ PyNone (PyStr "relu"))
    as (_ & _ & Hno & _).
  destruct (Hint H1 H2) as [Hr Hl].
  split; [exact Hr|]. split; [exact Hl|].
  apply Hno; reflexivity.
Defined.

End Estimator.

(** * Further properties of the network *)

Section NetworkMore.

Context {A G E : Type} `{NP : !Numpy A G E}.
Import MultiLayerELM.
Local Abbreviation elm := (@MultiLayerELM.t A G).

(** The forward pass reads the weights, the biases and the activation,
    nothing else. *)
Lemma forward_loop_ext (s s' : elm) (idx : list nat) (X : ndarray A) :
  weights s = weights s' ->
  biases s = biases s' ->
  act_func s = act_func s' ->
  forward_loop s idx X = forward_loop s' idx X.
Proof.
  intros Hw Hb Hf. revert X. induction idx as [|i rest IH]; intros X; simpl;
    [reflexivity|].
  rewrite Hw, Hb, Hf. unfold rbind.
  destruct (getitem (weights s') i); [|reflexivity].
  destruct (np_dot X x); [|reflexivity].
  destruct (getitem (biases s') i); [|reflexivity].
  destruct (np_add x0 x1); [|reflexivity].
  destruct (act_func s' x2); [|reflexivity].
  apply IH.
Qed.

Lemma forward_set_beta (b : option (ndarray A)) (s : elm) (X : ndarray A) :
  _forward (set_beta b s) X = _forward s X.
Proof. unfold _forward. now apply forward_loop_ext. Qed.

(** What a successful [update_beta] leaves behind. *)
Lemma update_beta_success (X y : ndarray A) (s s' : elm) :
  update_beta X y s = (s', Ok tt) ->
  exists H P b,
    _forward s X = Ok H /\ np_pinv H = Ok P /\ np_dot P y = Ok b /\
    s' = set_beta (Some b) s.
Proof.
  unfold update_beta. run_method.
  destruct (_forward s X) as [H|e] eqn:HH; [|discriminate]. simpl.
  destruct (np_pinv H) as [P|e] eqn:HP; [|discriminate]. simpl.
  destruct (np_dot P y) as [b|e] eqn:Hb; [|discriminate].
  intros Heq. exists H, P, b. inversion Heq. auto.
Qed.

Lemma draw_n_add (a b : nat) (g : G) :
  draw_n (a + b) g =
    (fst (draw_n a g) ++ fst (draw_n b (snd (draw_n a g))),
     snd (draw_n b (snd (draw_n a g)))).
Proof.
  revert g. induction a as [|a IH]; intros g; simpl.
  - now destruct (draw_n b g).
  - destruct (rng_normal g) as [x g1]. rewrite IH.
    destruct (draw_n a g1) as [xs g2]. reflexivity.
Qed.

Lemma initialize_loop_samples (sizes : list nat) (n : nat) (self : elm) :
  exists ws bs,
    initialize_loop sizes n self =
      (mk (layer_sizes self) (act_name self) (act_func self)
          (snd (draw_n (ndim_from n sizes) (generator self)))
          (weights self ++ ws) (biases self ++ bs) (beta self)
          (input_size self), Ok tt)
    /\ shaped n sizes ws bs
    /\ interleaved ws bs = fst (draw_n (ndim_from n sizes) (generator self)).
Proof.
  revert n self. induction sizes as [|size rest IH]; intros n self.
  - exists [], []. split; [|split; [exact I|reflexivity]].
    destruct self; run_method. now rewrite !app_nil_r.
  - cbn [initialize_loop ndim_from].
    rewrite !draw_n_add.
    unfold bind at 1. unfold standard_normal at 1.
    rewrite size_of_matrix.
    pose proof (draw_n_length (n * size) (generator self)) as Hw.
    destruct (draw_n (n * size) (generator self)) as [xs g1].
    unfold bind at 1. unfold standard_normal at 1.
    cbn [generator set_generator fst snd]. rewrite size_of_vector.
    pose proof (draw_n_length size g1) as Hb.
    destruct (draw_n size g1) as [ys g2].
    unfold append_weight, append_bias. run_method.
    match goal with |- context [initialize_loop rest size ?s] =>
      destruct (IH size s) as (ws & bs & Heq & Hsh & Hil); rewrite Heq
    end.
    exists (mk_ndarray [n; size] xs :: ws), (mk_ndarray [size] ys :: bs).
    split; [|split].
    + simpl. now rewrite <- !app_assoc.
    + simpl in *. repeat split; assumption.
    + simpl in *. rewrite Hil. now rewrite <- app_assoc.
Qed.

Lemma initialize_weights_samples (n : nat) (self : elm) :
  exists ws bs,
    _initialize_weights n self =
      (mk (layer_sizes self) (act_name self) (act_func self)
          (snd (draw_n (ndim_formula n (layer_sizes self)) (generator self)))
          ws bs (beta self) (input_size self), Ok tt)
    /\ shaped n (layer_sizes self) ws bs
    /\ interleaved ws bs
       = fst (draw_n (ndim_formula n (layer_sizes self)) (generator self)).
Proof.
  unfold _initialize_weights. run_method. rewrite <- ndim_from_formula.
  match goal with |- context [initialize_loop ?l n ?s] =>
    destruct (initialize_loop_samples l n s) as (ws & bs & Heq & Hsh & Hil)
  end.
  exists ws, bs. rewrite Heq. simpl in *. auto.
Qed.




Lemma update_beta_set_beta (X y : ndarray A) (b : option (ndarray A)) (s : elm) :
  snd (update_beta X y (set_beta b s)) = snd (update_beta X y s) /\
  weights (fst (update_beta X y (set_beta b s))) = weights (fst (update_beta X y s)) /\
  biases (fst (update_beta X y (set_beta b s))) = biases (fst (update_beta X y s)) /\
  (snd (update_beta X y s) = Ok tt ->
   update_beta X y (set_beta b s) = update_beta X y s).
Proof.
  unfold update_beta. run_method. rewrite forward_set_beta.
  destruct (_forward s X) as [H|e1]; [|repeat split; discriminate]. simpl.
  destruct (np_pinv H) as [P|e1]; [|repeat split; discriminate]. simpl.
  destruct (np_dot P y) as [b'|e1]; repeat split; discriminate.
Qed.

Lemma decode_loop_set_beta (sol : ndarray A) (sizes : list nat) (start : nat)
    (n : option nat) (b : option (ndarray A)) (s : elm) :
  decode_loop sol sizes start n (set_beta b s) =
    (set_beta b (fst (decode_loop sol sizes start n s)),
     snd (decode_loop sol sizes start n s)).
Proof.
  revert start n s. induction sizes as [|size rest IH]; intros start n s;
    [reflexivity|].
  destruct n as [n|]; [|reflexivity].
  rewrite !decode_loop_cons.
  destruct (reshape (slice sol start (start + n * size)) [n; size]);
    [|reflexivity].
  match goal with |- _ = (set_beta b (fst (decode_loop _ _ _ _ ?s1)), _) =>
    rewrite <- (IH (start + n * size + size) (Some size) s1)
  end.
  reflexivity.
Qed.

(** *** Round trips *)

(** X1: [decode] inverts the layer-by-layer layout for every topology.
    In a network whose input size is fixed, decoding the vector that
    lists well-shaped parameters layer by layer (the weights of a layer,
    then its biases), followed by anything, restores exactly these
    weights and biases, whether or not the update of [beta] succeeds. *)
Theorem decode_restores_layerwise_vector (self : elm) (n : nat)
    (ws bs : list (ndarray A)) (tail : list A) (X y : ndarray A) :
  input_size self = Some n ->
  shaped n (layer_sizes self) ws bs ->
  decode_params (array1 (interleaved ws bs ++ tail)) self =
    (mk (layer_sizes self) (act_name self) (act_func self) (generator self)
        ws bs (beta self) (input_size self), Ok tt) /\
  weights (fst (decode (array1 (interleaved ws bs ++ tail)) X y self)) = ws /\
  biases (fst (decode (array1 (interleaved ws bs ++ tail)) X y self)) = bs.
Proof.
  intros Hn Hsh.
  destruct (shaped_lengths _ _ _ _ Hsh) as (_ & _ & _ & Hlen).
  assert (Hp : decode_params (array1 (interleaved ws bs ++ tail)) self =
               decode_params (array1 (interleaved ws bs)) self).
  { rewrite !decode_params_loop, Hn.
    apply decode_loop_prefix with (m := ndim_from n (layer_sizes self));
      [simpl; lia|].
    cbn [array1 data]. rewrite take_app_le by lia. reflexivity. }
  rewrite (decode_params_interleaved self n ws bs Hn Hsh) in Hp.
  split; [exact Hp|].
  destruct (decode_keeps_params (array1 (interleaved ws bs ++ tail)) X y self)
    as [-> ->].
  rewrite Hp. split; reflexivity.
Qed.

(** X2: with one hidden layer the round trip holds.  After [fit] on a
    two-dimensional input, [encode] returns a vector of
    [input_size * size + size] entries from which [decode] restores the
    network's weights and biases exactly. *)
Theorem single_layer_roundtrip_after_fit (self : elm) (size n : nat)
    (X y X' y' : ndarray A) :
  layer_sizes self = [size] ->
  shape X !! 1 = Some n ->
  exists v,
    encode (fst (fit X y self)) = Ok v /\
    length (data v) = n * size + size /\
    fst (decode_params v (fst (fit X y self))) = fst (fit X y self) /\
    weights (fst (decode v X' y' (fst (fit X y self))))
      = weights (fst (fit X y self)) /\
    biases (fst (decode v X' y' (fst (fit X y self))))
      = biases (fst (fit X y self)).
Proof.
  intros Hsize HX.
  destruct (fit_initializes X y self n HX) as (Hl & Hi & Hsh).
  rewrite Hsize in Hl, Hsh.
  set (net := fst (fit X y self)) in *.
  destruct (weights net) as [|w [|w' ws]] eqn:Hw;
    destruct (biases net) as [|b [|b' bs]] eqn:Hb;
    simpl in Hsh; try tauto.
  destruct (roundtrip_single_layer net n size w b Hi Hl Hw Hb) as (v & Hv & Hd).
  { simpl. exact Hsh. }
  exists v. split; [exact Hv|].
  destruct (decode_keeps_params v X' y' net) as [Hkw Hkb].
  rewrite Hkw, Hkb, Hd, Hw, Hb.
  split; [|repeat split].
  rewrite encode_blocked in Hv by (rewrite Hw; discriminate).
  inversion Hv. rewrite Hw, Hb. simpl. rewrite !app_nil_r, length_app.
  destruct Hsh as (_ & -> & _ & -> & _). reflexivity.
Qed.

(** X3: with one hidden layer, decoding a vector and encoding the
    network again returns the first [input_size * size + size] entries
    of the vector: the vector itself when it has exactly that many. *)
Theorem single_layer_decode_then_encode (self : elm) (n size : nat)
    (v X y : ndarray A) :
  input_size self = Some n ->
  layer_sizes self = [size] ->
  n * size + size <= length (data v) ->
  encode (fst (decode v X y self))
    = Ok (array1 (take (n * size + size) (data v))).
Proof.
  intros Hn Hsize Hlen.
  destruct (decode_keeps_params v X y self) as [Hkw Hkb].
  rewrite decode_params_loop, Hn, Hsize in Hkw, Hkb.
  match type of Hkw with context [decode_loop v ?l 0 _ ?s] =>
    destruct (decode_loop_full l 0 n v s) as (ws & bs & Heq & Hsh & Hil);
      [simpl; lia|]
  end.
  rewrite Heq in Hkw, Hkb. simpl in Hkw, Hkb.
  destruct ws as [|w [|w' ws]]; destruct bs as [|b [|b' bs]];
    simpl in Hsh; try tauto.
  rewrite encode_blocked by (rewrite Hkw; discriminate).
  rewrite Hkw, Hkb. simpl in *. rewrite !app_nil_r in *.
  rewrite Hil. do 3 f_equal. lia.
Qed.

(** *** Initialisation and fit *)

(** X4: [_initialize_weights] draws exactly [get_ndim()] samples and
    lays them out as [decode] does.  It succeeds for every topology,
    replaces the weights and biases by well-shaped arrays filled, layer
    by layer, with the next samples of the generator, advances the
    generator by that many samples and touches nothing else; decoding
    the vector of these samples gives the same weights and biases. *)
Theorem initialize_weights_draws_layerwise (n : nat) (self : elm) :
  exists ws bs,
    _initialize_weights n self =
      (mk (layer_sizes self) (act_name self) (act_func self)
          (snd (draw_n (ndim_formula n (layer_sizes self)) (generator self)))
          ws bs (beta self) (input_size self), Ok tt) /\
    shaped n (layer_sizes self) ws bs /\
    interleaved ws bs
      = fst (draw_n (ndim_formula n (layer_sizes self)) (generator self)) /\
    decode_params
      (array1 (fst (draw_n (ndim_formula n (layer_sizes self)) (generator self))))
      (set_input_size (Some n) self) =
      (mk (layer_sizes self) (act_name self) (act_func self) (generator self)
          ws bs (beta self) (Some n), Ok tt).
Proof.
  destruct (initialize_weights_samples n self) as (ws & bs & Heq & Hsh & Hil).
  exists ws, bs. split; [exact Heq|]. split; [exact Hsh|]. split; [exact Hil|].
  rewrite <- Hil.
  now rewrite (decode_params_interleaved (set_input_size (Some n) self) n ws bs).
Qed.


(** X6: a network is of no use before [fit].  Right after construction
    with at least one hidden layer, [predict] raises IndexError (there
    are no weights), [encode] raises ValueError (nothing to
    concatenate), [get_ndim] and [decode] raise TypeError (the input
    size is None) and [get_weights] raises AttributeError ([beta] is
    None). *)
Theorem fresh_network_needs_fit (os : E) (sizes : list nat) (act : string)
    (seed : Z) (f : ndarray A -> result (ndarray A)) (v X y : ndarray A) :
  activation act = Some f ->
  (0 <= seed)%Z ->
  sizes <> [] ->
  exists net,
    __init__ os sizes act (Some seed) = Ok net /\
    predict net X = Raise (IndexError "list index out of range") /\
    encode net = Raise (ValueError "need at least one array to concatenate") /\
    get_ndim net
      = Raise (TypeError "unsupported operand type(s) for *: 'NoneType' and 'int'") /\
    snd (decode v X y net)
      = Raise (TypeError "unsupported operand type(s) for *: 'NoneType' and 'int'") /\
    snd (get_weights net)
      = Raise (AttributeError "'NoneType' object has no attribute 'shape'").
Proof.
  intros Hact Hseed Hne.
  unfold __init__, default_rng. rewrite Hact.
  destruct (Z.ltb_spec seed 0) as [Hneg|_]; [lia|]. cbn [rbind].
  eexists. split; [reflexivity|].
  destruct sizes as [|size rest]; [contradiction|].
  repeat split.
Qed.

(** *** Predictions *)

(** X7: what [predict] computes after a successful [fit].  The forward
    pass of the fitted network on the training input gives some [H],
    [beta] is [np.dot(np.linalg.pinv(H), y)], and [predict] on that
    input returns [np.dot(H, beta)]. *)
Theorem fit_then_predict (X y : ndarray A) (self : elm) :
  snd (fit X y self) = Ok tt ->
  exists H P b,
    _forward (fst (fit X y self)) X = Ok H /\
    np_pinv H = Ok P /\
    np_dot P y = Ok b /\
    beta (fst (fit X y self)) = Some b /\
    predict (fst (fit X y self)) X = np_dot H b.
Proof.
  intros Hok.
  destruct (shape X !! 1) as [n|] eqn:HX.
  - destruct (fit_steps X y self n HX) as (ws & bs & g & _ & Hfit).
    rewrite Hfit in *.
    match type of Hok with context [update_beta X y ?s0] =>
      destruct (update_beta X y s0) as [s' r] eqn:Hu
    end.
    simpl in Hok. subst r.
    destruct (update_beta_success _ _ _ _ Hu) as (H & P & b & HH & HP & Hb & ->).
    exists H, P, b. simpl fst. unfold predict.
    rewrite forward_set_beta, HH. repeat split; assumption.
  - unfold fit, shape_at in Hok. rewrite HX in Hok. discriminate Hok.
Qed.

(** X8: the same after a successful [decode], the step of every fitness
    evaluation: the decoded network's forward pass on [X] gives some
    [H], [beta] is [np.dot(np.linalg.pinv(H), y)], and [predict] on [X]
    returns [np.dot(H, beta)]. *)
Theorem decode_then_predict (sol X y : ndarray A) (self : elm) :
  snd (decode sol X y self) = Ok tt ->
  exists H P b,
    _forward (fst (decode sol X y self)) X = Ok H /\
    np_pinv H = Ok P /\
    np_dot P y = Ok b /\
    beta (fst (decode sol X y self)) = Some b /\
    predict (fst (decode sol X y self)) X = np_dot H b.
Proof.
  unfold decode, bind.
  destruct (decode_params sol self) as [s1 [[]|e]]; [|discriminate].
  destruct (update_beta X y s1) as [s' r] eqn:Hu.
  simpl. intros ->.
  destruct (update_beta_success _ _ _ _ Hu) as (H & P & b & HH & HP & Hb & ->).
  exists H, P, b. unfold predict.
  rewrite forward_set_beta, HH. repeat split; assumption.
Qed.

(** X9: a fitness evaluation does not depend on the candidates decoded
    before.  [decode] gives the same outcome and the same weights and
    biases whatever weights, biases and [beta] the network held, and
    when it succeeds the whole network afterwards is the same. *)
Theorem decode_forgets_previous_parameters (self : elm)
    (ws bs : list (ndarray A)) (b : option (ndarray A)) (sol X y : ndarray A) :
  snd (decode sol X y
         (mk (layer_sizes self) (act_name self) (act_func self) (generator self)
             ws bs b (input_size self)))
    = snd (decode sol X y self) /\
  weights (fst (decode sol X y
         (mk (layer_sizes self) (act_name self) (act_func self) (generator self)
             ws bs b (input_size self))))
    = weights (fst (decode sol X y self)) /\
  biases (fst (decode sol X y
         (mk (layer_sizes self) (act_name self) (act_func self) (generator self)
             ws bs b (input_size self))))
    = biases (fst (decode sol X y self)) /\
  (snd (decode sol X y self) = Ok tt ->
   decode sol X y
     (mk (layer_sizes self) (act_name self) (act_func self) (generator self)
         ws bs b (input_size self))
   = decode sol X y self).
Proof.
  unfold decode, bind. rewrite !decode_params_loop. cbn [layer_sizes input_size
    act_name act_func generator beta].
  match goal with |- context [decode_loop sol ?l 0 ?n
      (mk ?a1 ?a2 ?a3 ?a4 [] [] (beta self) ?a8)] =>
    change (mk a1 a2 a3 a4 [] [] b a8)
      with (set_beta b (mk a1 a2 a3 a4 [] [] (beta self) a8));
    rewrite (decode_loop_set_beta sol l 0 n b (mk a1 a2 a3 a4 [] [] (beta self) a8));
    destruct (decode_loop sol l 0 n (mk a1 a2 a3 a4 [] [] (beta self) a8))
      as [s1 [[]|e]]
  end; cbn [fst snd].
  - exact (update_beta_set_beta X y b s1).
  - repeat split. discriminate.
Qed.

End NetworkMore.

(** * Further properties of the estimator classes *)

Section BoundsMore.

Import BaseMhaElm.

Lemma mapM_length {X Y} (f : X -> result Y) (xs : list X) (ys : list Y) :
  mapM f xs = Ok ys -> length ys = length xs.
Proof.
  revert ys. induction xs as [|x rest IH]; intros ys; simpl.
  - intros H. inversion H. reflexivity.
  - destruct (f x) as [y|e]; simpl; [|discriminate].
    destruct (mapM f rest) as [ys'|e]; simpl; [|discriminate].
    intros H. inversion H. simpl. f_equal. now apply IH.
Qed.

Lemma concat_replicate_length {X} (n : nat) (xs : list X) :
  length (concat (replicate n xs)) = n * length xs.
Proof.
  induction n as [|n IH]; simpl; [reflexivity|].
  rewrite length_app, IH. reflexivity.
Qed.

(** X10: the resolved bounds have the dimension of the problem.  When
    [_get_lb_ub] succeeds on bounds that are lists, tuples or bare
    numbers, for a non-negative [problem_size], both results are
    sequences of exactly [problem_size] entries. *)
Theorem get_lb_ub_resolved_lengths (lb ub lb' ub' : bound) (problem_size : Z) :
  is_array lb = false ->
  is_array ub = false ->
  (0 <= problem_size)%Z ->
  _get_lb_ub lb ub problem_size = Ok (lb', ub') ->
  is_sequence lb' = true /\ is_sequence ub' = true /\
  Z.of_nat (seq_len lb') = problem_size /\
  Z.of_nat (seq_len ub') = problem_size.
Proof.
  intros Hal Hau Hn. unfold _get_lb_ub.
  destruct (is_sequence lb && is_sequence ub) eqn:Hseq.
  - apply andb_prop in Hseq as [Hsl Hsu].
    destruct (Nat.eqb_spec (seq_len lb) (seq_len ub)) as [Heq|]; [|discriminate].
    destruct (Nat.eqb_spec (seq_len lb) 1) as [H1|H1].
    + assert (Hu1 : seq_len ub = 1) by congruence.
      destruct lb as [xs|xs| | | | |]; try discriminate;
        destruct ub as [zs|zs| | | | |]; try discriminate;
        simpl in H1, Hu1; simpl;
        (destruct (mapM float_of_num (concat (replicate (Z.to_nat problem_size) xs)))
           as [fs|e] eqn:Hfs; simpl; [|discriminate]);
        (destruct (mapM float_of_num (concat (replicate (Z.to_nat problem_size) zs)))
           as [gs|e] eqn:Hgs; simpl; [|discriminate]);
        intros H; inversion H; subst; simpl;
        apply mapM_length in Hfs, Hgs;
        rewrite Hfs, Hgs, !concat_replicate_length, H1, Hu1;
        repeat split; lia.
    + destruct (Z.eqb_spec (Z.of_nat (seq_len lb)) problem_size) as [Hp|];
        simpl; [|discriminate].
      intros H. inversion H. subst lb' ub'.
      repeat split; try assumption. now rewrite <- Heq.
  - destruct (is_number lb && is_number ub); [|discriminate].
    destruct (py_float lb) as [l|e]; simpl; [|discriminate].
    destruct (py_float ub) as [u|e]; simpl; [|discriminate].
    intros H. inversion H. subst. simpl.
    rewrite !concat_replicate_length. simpl length. repeat split; lia.
Qed.

(** X11: how bounds are broadcast.  A one-entry list or tuple gives a
    float array, a bare int or float a tuple of floats; in both cases
    the result holds [problem_size] copies of the entry converted to
    float. *)
Theorem get_lb_ub_broadcasts (problem_size : Z) :
  (forall lb ub a b fa fb,
     lb = BList [a] \/ lb = BTuple [a] ->
     ub = BList [b] \/ ub = BTuple [b] ->
     float_of_num a = Ok fa ->
     float_of_num b = Ok fb ->
     _get_lb_ub lb ub problem_size =
       Ok (BArrayFloat (replicate (Z.to_nat problem_size) fa),
           BArrayFloat (replicate (Z.to_nat problem_size) fb))) /\
  (forall lb ub l u,
     is_number lb = true ->
     is_number ub = true ->
     py_float lb = Ok l ->
     py_float ub = Ok u ->
     _get_lb_ub lb ub problem_size =
       Ok (BTuple (replicate (Z.to_nat problem_size) (NFloat l)),
           BTuple (replicate (Z.to_nat problem_size) (NFloat u)))).
Proof.
  split.
  - intros lb ub a b fa fb Hlb Hub Ha Hb.
    now apply get_lb_ub_tiles_lists with (a := a) (b := b).
  - intros lb ub l u Hl Hu Hfl Hfu. unfold _get_lb_ub.
    replace (is_sequence lb && is_sequence ub) with false
      by (destruct lb, ub; try discriminate; reflexivity).
    rewrite Hl, Hu, Hfl, Hfu. simpl.
    now rewrite !concat_replicate_singleton.
Qed.

Lemma get_lb_ub_resolved_lengths_witness :
  is_array (BList [NInt (-3); NInt (-2)]) = false /\
  is_array (BTuple [NFloat 3; NFloat 2]) = false /\
  (0 <= 2)%Z /\
  _get_lb_ub (BList [NInt (-3); NInt (-2)]) (BTuple [NFloat 3; NFloat 2]) 2
    = Ok (BList [NInt (-3); NInt (-2)], BTuple [NFloat 3; NFloat 2]) /\
  Z.of_nat (seq_len (BList [NInt (-3); NInt (-2)])) = 2%Z.
Proof.
  assert (H3 : (0 <= 2)%Z) by lia.
  assert (H4 : _get_lb_ub (BList [NInt (-3); NInt (-2)])
                 (BTuple [NFloat 3; NFloat 2]) 2
               = Ok (BList [NInt (-3); NInt (-2)], BTuple [NFloat 3; NFloat 2]))
    by reflexivity.
  split; [reflexivity|]. split; [reflexivity|]. split; [exact H3|].
  split; [exact H4|].
  exact (proj1 (proj2 (proj2
    (get_lb_ub_resolved_lengths (BList [NInt (-3); NInt (-2)])
       (BTuple [NFloat 3; NFloat 2]) (BList [NInt (-3); NInt (-2)])
       (BTuple [NFloat 3; NFloat 2]) 2 eq_refl eq_refl H3 H4)))).
Defined.

Lemma get_lb_ub_broadcasts_witness :
  _get_lb_ub (BTuple [NFloat (-10)]) (BTuple [NFloat 10]) 3 =
    Ok (BArrayFloat (replicate 3 (-10)%float), BArrayFloat (replicate 3 10%float)) /\
  _get_lb_ub (BInt (-1)) (BFloat 1) 3 =
    Ok (BTuple (replicate 3 (NFloat (-1))), BTuple (replicate 3 (NFloat 1))).
Proof.
  destruct (get_lb_ub_broadcasts 3) as [Hseq Hnum].
  split.
  - apply (Hseq _ _ (NFloat (-10)) (NFloat 10)); auto.
  - apply Hnum; reflexivity.
Defined.

End BoundsMore.

Section ExamplesMore.

Import MultiLayerELM.
#[local] Existing Instance Float64.backend.

Lemma decode_restores_layerwise_vector_witness :
  input_size net_two_layers_sized = Some 1 /\
  shaped 1 (layer_sizes net_two_layers_sized)
    [mat 1 1 [1%float]; mat 1 1 [2%float]] [array1 [3%float]; array1 [4%float]] /\
  weights (fst (decode (array1 [1%float; 3%float; 2%float; 4%float; 9%float])
                  X_one y_one net_two_layers_sized))
    = [mat 1 1 [1%float]; mat 1 1 [2%float]] /\
  biases (fst (decode (array1 [1%float; 3%float; 2%float; 4%float; 9%float])
                 X_one y_one net_two_layers_sized))
    = [array1 [3%float]; array1 [4%float]].
Proof.
  assert (H1 : input_size net_two_layers_sized = Some 1) by reflexivity.
  assert (H2 : shaped 1 (layer_sizes net_two_layers_sized)
                 [mat 1 1 [1%float]; mat 1 1 [2%float]]
                 [array1 [3%float]; array1 [4%float]])
    by (simpl; repeat split).
  split; [exact H1|]. split; [exact H2|].
  exact (proj2 (decode_restores_layerwise_vector net_two_layers_sized 1
                  [mat 1 1 [1%float]; mat 1 1 [2%float]]
                  [array1 [3%float]; array1 [4%float]] [9%float]
                  X_one y_one H1 H2)).
Defined.

Lemma single_layer_roundtrip_after_fit_witness :
  layer_sizes net_one_layer = [1] /\
  shape X_one !! 1 = Some 1 /\
  exists v,
    encode (fst (fit X_one y_one net_one_layer)) = Ok v /\
    length (data v) = 1 * 1 + 1 /\
    fst (decode_params v (fst (fit X_one y_one net_one_layer)))
      = fst (fit X_one y_one net_one_layer) /\
    weights (fst (decode v X_ten y_one (fst (fit X_one y_one net_one_layer))))
      = weights (fst (fit X_one y_one net_one_layer)) /\
    biases (fst (decode v X_ten y_one (fst (fit X_one y_one net_one_layer))))
      = biases (fst (fit X_one y_one net_one_layer)).
Proof.
  assert (H1 : layer_sizes net_one_layer = [1]) by reflexivity.
  assert (H2 : shape X_one !! 1 = Some 1) by reflexivity.
  split; [exact H1|]. split; [exact H2|].
  exact (single_layer_roundtrip_after_fit net_one_layer 1 1
           X_one y_one X_ten y_one H1 H2).
Defined.

Lemma single_layer_decode_then_encode_witness :
  input_size net_1_1 = Some 1 /\
  layer_sizes net_1_1 = [1] /\
  1 * 1 + 1 <= length (data (array1 [1%float; 0%float])) /\
  encode (fst (decode (array1 [1%float; 0%float]) X_one y_one net_1_1))
    = Ok (array1 (take (1 * 1 + 1) (data (array1 [1%float; 0%float])))).
Proof.
  assert (H1 : input_size net_1_1 = Some 1) by reflexivity.
  assert (H2 : layer_sizes net_1_1 = [1]) by reflexivity.
  assert (H3 : 1 * 1 + 1 <= length (data (array1 [1%float; 0%float])))
    by (simpl; lia).
  split; [exact H1|]. split; [exact H2|]. split; [exact H3|].
  exact (single_layer_decode_then_encode net_1_1 1 1
           (array1 [1%float; 0%float]) X_one y_one H1 H2 H3).
Defined.

Lemma fresh_network_needs_fit_witness :
  activation "relu" = Some Float64.relu /\
  (0 <= 1)%Z /\
  [1; 1] <> [] /\
  exists net,
    __init__ 0 [1; 1] "relu" (Some 1%Z) = Ok net /\
    predict net X_one = Raise (IndexError "list index out of range") /\
    encode net = Raise (ValueError "need at least one array to concatenate") /\
    get_ndim net
      = Raise (TypeError "unsupported operand type(s) for *: 'NoneType' and 'int'") /\
    snd (decode (array1 [1%float]) X_one y_one net)
      = Raise (TypeError "unsupported operand type(s) for *: 'NoneType' and 'int'") /\
    snd (get_weights net)
      = Raise (AttributeError "'NoneType' object has no attribute 'shape'").
Proof.
  assert (H1 : activation "relu" = Some Float64.relu) by reflexivity.
  assert (H2 : (0 <= 1)%Z) by lia.
  assert (H3 : [1; 1] <> ([] : list nat)) by discriminate.
  split; [exact H1|]. split; [exact H2|]. split; [exact H3|].
  exact (fresh_network_needs_fit 0 [1; 1] "relu" 1%Z Float64.relu
           (array1 [1%float]) X_one y_one H1 H2 H3).
Defined.

Lemma fit_then_predict_witness :
  snd (fit X_one y_one net_two_layers) = Ok tt /\
  exists H P b,
    _forward (fst (fit X_one y_one net_two_layers)) X_one = Ok H /\
    np_pinv H = Ok P /\
    np_dot P y_one = Ok b /\
    beta (fst (fit X_one y_one net_two_layers)) = Some b /\
    predict (fst (fit X_one y_one net_two_layers)) X_one = np_dot H b.
Proof.
  assert (H1 : snd (fit X_one y_one net_two_layers) = Ok tt)
    by (vm_compute; reflexivity).
  split; [exact H1|].
  exact (fit_then_predict X_one y_one net_two_layers H1).
Defined.

Lemma decode_then_predict_witness :
  snd (decode (array1 [1%float; 0%float]) X_one y_one net_1_1) = Ok tt /\
  exists H P b,
    _forward (fst (decode (array1 [1%float; 0%float]) X_one y_one net_1_1)) X_one
      = Ok H /\
    np_pinv H = Ok P /\
    np_dot P y_one = Ok b /\
    beta (fst (decode (array1 [1%float; 0%float]) X_one y_one net_1_1)) = Some b /\
    predict (fst (decode (array1 [1%float; 0%float]) X_one y_one net_1_1)) X_one
      = np_dot H b.
Proof.
  assert (H1 : snd (decode (array1 [1%float; 0%float]) X_one y_one net_1_1) = Ok tt)
    by (vm_compute; reflexivity).
  split; [exact H1|].
  exact (decode_then_predict (array1 [1%float; 0%float]) X_one y_one net_1_1 H1).
Defined.

End ExamplesMore.

Section EstimatorMore.

Import BaseElm.

(** X12: after a successful construction the attribute [layer_sizes] is
    always a list, a tuple or an array, so it can be iterated;
    constructing again from the stored value stores it unchanged; and
    the constructor touches no attribute besides the six it sets. *)
Theorem init_stores_a_sequence (self self' : gmap string pyobj)
    (layer_sizes act_name : pyobj) :
  __init__ layer_sizes act_name self = (self', Ok tt) ->
  exists stored,
    self' !! "layer_sizes" = Some stored /\
    isinstance stored [c_list; c_tuple; c_ndarray] = true /\
    (forall self2,
       snd (__init__ stored act_name self2) = Ok tt /\
       fst (__init__ stored act_name self2) !! "layer_sizes" = Some stored) /\
    (forall name,
       name ∉ ["layer_sizes"; "act_name"; "network"; "loss_train";
               "n_labels"; "input_size"] ->
       self' !! name = self !! name).
Proof.
  intros Hinit.
  destruct (isinstance layer_sizes [c_list; c_tuple; c_ndarray; c_int]) eqn:Hany.
  - destruct (init_stores self layer_sizes act_name Hany) as [_ Hl].
    assert (Hs : self' = fst (__init__ layer_sizes act_name self))
      by now rewrite Hinit.
    exists (if isinstance layer_sizes [c_list; c_tuple; c_ndarray]
            then layer_sizes else PyList [layer_sizes]).
    assert (Hseq : isinstance
              (if isinstance layer_sizes [c_list; c_tuple; c_ndarray]
               then layer_sizes else PyList [layer_sizes])
              [c_list; c_tuple; c_ndarray] = true).
    { destruct (isinstance layer_sizes [c_list; c_tuple; c_ndarray]) eqn:Hsq;
        [exact Hsq|reflexivity]. }
    split; [now rewrite Hs|]. split; [exact Hseq|]. split.
    + intros self2.
      destruct (init_stores self2 _ act_name
                  (eq_trans (isinstance_sequence_or_int _)
                     (f_equal (fun b => b || _) Hseq))) as [Hr Hl2].
      rewrite Hseq in Hl2. now split.
    + intros name Hname. rewrite Hs. unfold __init__. rewrite Hany.
      unfold setattr. run_method.
      rewrite !lookup_insert_ne; [reflexivity|..];
        intros <-; apply Hname; set_solver.
  - rewrite (init_rejects self layer_sizes act_name Hany) in Hinit.
    discriminate Hinit.
Qed.

Lemma init_stores_a_sequence_witness :
  __init__ (PyInt 10) (PyStr "relu") ∅
    = (fst (__init__ (PyInt 10) (PyStr "relu") ∅), Ok tt) /\
  exists stored,
    fst (__init__ (PyInt 10) (PyStr "relu") ∅) !! "layer_sizes" = Some stored /\
    isinstance stored [c_list; c_tuple; c_ndarray] = true /\
    (forall self2,
       snd (__init__ stored (PyStr "relu") self2) = Ok tt /\
       fst (__init__ stored (PyStr "relu") self2) !! "layer_sizes" = Some stored) /\
    (forall name,
       name ∉ ["layer_sizes"; "act_name"; "network"; "loss_train";
               "n_labels"; "input_size"] ->
       fst (__init__ (PyInt 10) (PyStr "relu") ∅) !! name
         = (∅ : gmap string pyobj) !! name).
Proof.
  assert (H1 : __init__ (PyInt 10) (PyStr "relu") ∅
               = (fst (__init__ (PyInt 10) (PyStr "relu") ∅), Ok tt))
    by reflexivity.
  split; [exact H1|].
  exact (init_stores_a_sequence ∅ _ (PyInt 10) (PyStr "relu") H1).
Defined.

(** *** Saving and loading a model *)

Lemma list_ascii_of_string_app (s t : string) :
  String.list_ascii_of_string (s +:+ t)
    = String.list_ascii_of_string s ++ String.list_ascii_of_string t.
Proof. induction s as [|c s IH]; simpl; [reflexivity|now rewrite IH]. Qed.

Lemma py_last_app (s t : string) :
  py_last (String.length t) (s +:+ t) = t.
Proof.
  unfold py_last. rewrite list_ascii_of_string_app, length_app.
  assert (Hlen : length (String.list_ascii_of_string t) = String.length t).
  { clear. induction t as [|c t IH]; simpl; [reflexivity|now rewrite IH]. }
  rewrite Hlen.
  replace (length (String.list_ascii_of_string s) + String.length t
           - String.length t)
    with (length (String.list_ascii_of_string s)) by lia.
  rewrite drop_app_length. apply String.string_of_list_ascii_of_string.
Qed.

Lemma pkl_filename_suffix (filename : string) :
  py_last 4 (pkl_filename filename) = ".pkl".
Proof.
  unfold pkl_filename.
  destruct (String.eqb_spec (py_last 4 filename) ".pkl") as [Heq|Hne]; simpl.
  - exact Heq.
  - exact (py_last_app filename ".pkl").
Qed.

Lemma pkl_filename_idempotent (filename : string) :
  pkl_filename (pkl_filename filename) = pkl_filename filename.
Proof.
  unfold pkl_filename at 1. rewrite pkl_filename_suffix. reflexivity.
Qed.

(** X13: the file name of a saved model.  The name [save_model] and
    [load_model] use always ends in ".pkl"; a name that ends in ".pkl"
    is used as it is, any other gets ".pkl" appended (also one that
    only contains ".pkl", or is shorter than four characters); and
    normalising twice changes nothing. *)
Theorem pkl_filename_ends_in_pkl (filename : string) :
  py_last 4 (pkl_filename filename) = ".pkl" /\
  (py_last 4 filename = ".pkl" -> pkl_filename filename = filename) /\
  (py_last 4 filename <> ".pkl" -> pkl_filename filename = filename +:+ ".pkl") /\
  pkl_filename (pkl_filename filename) = pkl_filename filename.
Proof.
  split; [apply pkl_filename_suffix|]. split; [|split].
  - intros Heq. unfold pkl_filename. rewrite Heq. reflexivity.
  - intros Hne. unfold pkl_filename.
    destruct (String.eqb_spec (py_last 4 filename) ".pkl"); [contradiction|].
    reflexivity.
  - apply pkl_filename_idempotent.
Qed.

Lemma pkl_filename_ends_in_pkl_witness :
  py_last 4 "a" <> ".pkl" /\
  pkl_filename "a" = "a.pkl" /\
  py_last 4 "model.pkl" = ".pkl" /\
  pkl_filename "model.pkl" = "model.pkl" /\
  pkl_filename ".pkl.gz" = ".pkl.gz.pkl".
Proof.
  assert (H1 : py_last 4 "a" <> ".pkl") by (vm_compute; discriminate).
  assert (H2 : py_last 4 "model.pkl" = ".pkl") by reflexivity.
  assert (H3 : py_last 4 ".pkl.gz" <> ".pkl") by (vm_compute; discriminate).
  split; [exact H1|].
  split; [exact (proj1 (proj2 (proj2 (pkl_filename_ends_in_pkl "a"))) H1)|].
  split; [exact H2|].
  split; [exact (proj1 (proj2 (pkl_filename_ends_in_pkl "model.pkl")) H2)|].
  exact (proj1 (proj2 (proj2 (pkl_filename_ends_in_pkl ".pkl.gz"))) H3).
Defined.

(** X14: a saved model is found again.  On a store where an object
    dumped to a path is what loading that path returns, after
    [save_model(save_path, filename)] succeeded,
    [load_model(save_path, filename')] returns the saved object for
    every [filename'] that normalises to the same name: the same
    [filename], and [filename] with or without its ".pkl". *)
Theorem save_then_load_model {FS Obj : Type} `{ST : !Storage FS Obj}
    (self : Obj) (save_path filename filename' : string) (fs fs' : FS) :
  (forall obj path s s',
     pickle_dump obj path s = (s', Ok tt) -> pickle_load path s' = (s', Ok obj)) ->
  save_model self save_path filename fs = (fs', Ok tt) ->
  pkl_filename filename' = pkl_filename filename ->
  load_model save_path filename' fs' = (fs', Ok self) /\
  load_model save_path filename fs' = (fs', Ok self) /\
  load_model save_path (pkl_filename filename) fs' = (fs', Ok self).
Proof.
  intros Hstore Hsave Hname.
  assert (Hload : pickle_load (save_path +:+ "/" +:+ pkl_filename filename) fs'
                  = (fs', Ok self)).
  { unfold save_model, bind in Hsave.
    destruct (mkdir_parents save_path fs) as [fs1 [[]|e]]; [|discriminate].
    now apply Hstore with (s := fs1). }
  unfold load_model.
  rewrite Hname, pkl_filename_idempotent.
  repeat split; exact Hload.
Qed.

Lemma save_then_load_model_witness :
  (forall (obj : nat) path (s s' : gmap string nat),
     pickle_dump obj path s = (s', Ok tt) -> pickle_load path s' = (s', Ok obj)) /\
  save_model 7 "history" "model" (∅ : gmap string nat)
    = ({[ "history/model.pkl" := 7 ]}, Ok tt) /\
  pkl_filename "model.pkl" = pkl_filename "model" /\
  load_model "history" "model.pkl" ({[ "history/model.pkl" := 7 ]} : gmap string nat)
    = ({[ "history/model.pkl" := 7 ]}, Ok 7).
Proof.
  assert (H1 : forall (obj : nat) path (s s' : gmap string nat),
             pickle_dump obj path s = (s', Ok tt) ->
             pickle_load path s' = (s', Ok obj)).
  { intros obj path s s' H. simpl in *. unfold modify in H. inversion H.
    now rewrite lookup_insert_eq. }
  assert (H2 : save_model 7 "history" "model" (∅ : gmap string nat)
               = ({[ "history/model.pkl" := 7 ]}, Ok tt)) by reflexivity.
  assert (H3 : pkl_filename "model.pkl" = pkl_filename "model") by reflexivity.
  split; [exact H1|]. split; [exact H2|]. split; [exact H3|].
  exact (proj1 (save_then_load_model 7 "history" "model" "model.pkl"
                  ∅ {[ "history/model.pkl" := 7 ]} H1 H2 H3)).
Defined.

End EstimatorMore.

(** ** The loss history *)

Section History.

Import BaseMhaElm.
Context {A : Type}.

Lemma uniform_rows_accepted (rows : list (list A)) (k : nat) :
  Forall (fun r => length r = k) rows ->
  forallb (fun r' => Nat.eqb (length r') k) rows = true.
Proof.
  induction 1 as [|r rest Hr _ IH]; simpl; [reflexivity|].
  now rewrite Hr, Nat.eqb_refl.
Qed.

Lemma first_of_each_heads (rows : list (list A)) (k : nat) :
  0 < k ->
  Forall (fun r => length r = k) rows ->
  length (first_of_each (length rows) (k * 1) 1 (concat rows)) = length rows /\
  Forall2 (fun x r => head r = Some x)
    (first_of_each (length rows) (k * 1) 1 (concat rows)) rows.
Proof.
  intros Hk. induction 1 as [|r rest Hr _ [IHl IH]]; simpl.
  - split; [reflexivity|constructor].
  - destruct r as [|x r']; [simpl in Hr; lia|].
    rewrite Nat.mul_1_r in *. simpl take.
    replace (drop k ((x :: r') ++ concat rest)) with (concat rest)
      by (now rewrite drop_app_length').
    simpl. split; [now rewrite IHl|]. constructor; [reflexivity|exact IH].
Qed.

(** X15: the loss history has one value per iteration, in order.  When
    the optimizer recorded at least one global best and all objective
    vectors have the same positive length, [_get_history_loss] returns a
    one-dimensional array with one entry per recorded best, the entry
    being the first objective of that best. *)
Theorem history_loss_first_objectives (rows : list (list A)) (k : nat) :
  rows <> [] ->
  0 < k ->
  Forall (fun r => length r = k) rows ->
  exists v,
    _get_history_loss (Some rows) = Ok v /\
    shape v = [length rows] /\
    length (data v) = length rows /\
    Forall2 (fun x r => head r = Some x) (data v) rows.
Proof.
  intros Hne Hk Hall.
  destruct (first_of_each_heads rows k Hk Hall) as [Hlen Hheads].
  unfold _get_history_loss, np_array_rows.
  destruct rows as [|r rest]; [contradiction|].
  assert (Hr : length r = k) by (now inversion Hall).
  rewrite Hr, (uniform_rows_accepted _ k Hall). cbn [rbind].
  unfold column0. cbn [shape data].
  destruct (Nat.eqb_spec k 0); [lia|].
  eexists. split; [reflexivity|]. cbn [shape data size_of foldr].
  repeat split; assumption.
Qed.

(** X16: when there is no loss history.  [_get_history_loss] raises
    AttributeError without an optimizer, IndexError when no global best
    was recorded or when the objective vectors are empty, and ValueError
    when two objective vectors differ in length. *)
Theorem history_loss_errors :
  @_get_history_loss A None
    = Raise (AttributeError "'NoneType' object has no attribute 'history'") /\
  @_get_history_loss A (Some [])
    = Raise (IndexError "too many indices for array") /\
  (forall rows : list (list A),
     rows <> [] ->
     Forall (fun r => r = []) rows ->
     _get_history_loss (Some rows)
       = Raise (IndexError "index 0 is out of bounds for axis 1 with size 0")) /\
  (forall (r r' : list A) (rows : list (list A)),
     r' ∈ rows ->
     length r' <> length r ->
     _get_history_loss (Some (r :: rows))
       = Raise (ValueError "setting an array element with a sequence. The requested array has an inhomogeneous shape")).
Proof.
  split; [reflexivity|]. split; [reflexivity|]. split.
  - intros rows Hne Hall.
    unfold _get_history_loss, np_array_rows.
    destruct rows as [|r rest]; [contradiction|].
    assert (Hr : r = []) by (now inversion Hall). subst r.
    rewrite (uniform_rows_accepted _ 0)
      by (eapply Forall_impl; [exact Hall|]; now intros ? ->).
    reflexivity.
  - intros r r' rows Hin Hlen.
    unfold _get_history_loss, np_array_rows.
    assert (Hf : forallb (fun r0 => Nat.eqb (length r0) (length r)) (r :: rows)
                 = false).
    { simpl. rewrite Nat.eqb_refl. simpl.
      apply not_true_is_false. intros Hall.
      rewrite forallb_forall in Hall.
      apply list_elem_of_In in Hin. specialize (Hall r' Hin).
      now apply Nat.eqb_eq in Hall. }
    rewrite Hf. reflexivity.
Qed.

End History.

Lemma history_loss_first_objectives_witness :
  [[3%Z; 30%Z]; [2%Z; 20%Z]; [1%Z; 10%Z]] <> [] /\
  0 < 2 /\
  Forall (fun r : list Z => length r = 2) [[3%Z; 30%Z]; [2%Z; 20%Z]; [1%Z; 10%Z]] /\
  BaseMhaElm._get_history_loss (Some [[3%Z; 30%Z]; [2%Z; 20%Z]; [1%Z; 10%Z]])
    = Ok (array1 [3%Z; 2%Z; 1%Z]) /\
  exists v,
    BaseMhaElm._get_history_loss (Some [[3%Z; 30%Z]; [2%Z; 20%Z]; [1%Z; 10%Z]])
      = Ok v /\
    shape v = [3] /\
    length (data v) = 3 /\
    Forall2 (fun x r => head r = Some x) (data v)
      [[3%Z; 30%Z]; [2%Z; 20%Z]; [1%Z; 10%Z]].
Proof.
  assert (H1 : [[3%Z; 30%Z]; [2%Z; 20%Z]; [1%Z; 10%Z]] <> []) by discriminate.
  assert (H2 : 0 < 2) by lia.
  assert (H3 : Forall (fun r : list Z => length r = 2)
                 [[3%Z; 30%Z]; [2%Z; 20%Z]; [1%Z; 10%Z]])
    by (repeat constructor).
  split; [exact H1|]. split; [exact H2|]. split; [exact H3|].
  split; [reflexivity|].
  exact (history_loss_first_objectives _ 2 H1 H2 H3).
Defined.

(** ** Estimator parameters *)

Section SetParams.

Import BaseMhaElm.

Lemma split_from_no_occurrence (sep s : string) (piece : list Ascii.ascii) :
  occurs sep s = false ->
  split_from sep 0 piece s
    = [String.string_of_list_ascii (rev piece ++ String.list_ascii_of_string s)].
Proof.
  revert piece. induction s as [|c rest IH]; intros piece Hocc.
  - simpl. now rewrite app_nil_r.
  - cbn [occurs] in Hocc. apply orb_false_elim in Hocc as [Hp Hrest].
    cbn [split_from]. rewrite Hp. rewrite (IH (c :: piece) Hrest).
    simpl. now rewrite <- app_assoc.
Qed.

Lemma split_from_nonempty (sep s : string) (skip : nat) (piece : list Ascii.ascii) :
  exists first rest, split_from sep skip piece s = first :: rest.
Proof.
  revert skip piece. induction s as [|c s' IH]; intros skip piece;
    cbn [split_from].
  - eauto.
  - destruct skip as [|k]; [|apply IH].
    destruct (String.prefix sep (String c s')); [eauto|apply IH].
Qed.

Lemma prefix_split (p k : string) :
  String.prefix p k = true -> exists t, k = p +:+ t.
Proof.
  revert k. induction p as [|a p IH]; intros k H.
  - exists k. reflexivity.
  - destruct k as [|b k]; simpl in H; [discriminate|].
    destruct (Ascii.ascii_dec a b) as [->|]; [|discriminate].
    destruct (IH k H) as [t ->]. exists t. reflexivity.
Qed.

Lemma split_prefixed_key (name : string) :
  py_split "__" ("optim_paras__" +:+ name)
    = "optim_paras" :: py_split "__" name.
Proof. destruct name; reflexivity. Qed.

Lemma optimizer_key_plain_name (name : string) :
  occurs "__" name = false ->
  optimizer_key ("optim_paras__" +:+ name) = Ok name.
Proof.
  intros Hocc. unfold optimizer_key. rewrite split_prefixed_key.
  unfold py_split. rewrite (split_from_no_occurrence _ _ [] Hocc).
  simpl. now rewrite String.string_of_list_ascii_of_string.
Qed.

(** X17: the hyper-parameter a prefixed key names.  For every key that
    starts with "optim_paras__", [k.split('__')[1]] exists (no
    IndexError) and is the text after the prefix up to its first "__":
    the whole rest of the key when that contains no "__". *)
Theorem optimizer_key_of_prefixed (k : string) :
  startswith k "optim_paras__" = true ->
  exists name first rest,
    k = "optim_paras__" +:+ name /\
    py_split "__" name = first :: rest /\
    optimizer_key k = Ok first /\
    (occurs "__" name = false -> optimizer_key k = Ok name).
Proof.
  intros Hk. destruct (prefix_split _ _ Hk) as [name ->].
  destruct (split_from_nonempty "__" name 0 []) as (first & rest & Hs).
  exists name, first, rest. split; [reflexivity|]. split; [exact Hs|].
  split; [|apply optimizer_key_plain_name].
  unfold optimizer_key. rewrite split_prefixed_key.
  unfold py_split in *. now rewrite Hs.
Qed.

Lemma optimizer_key_of_prefixed_witness :
  startswith "optim_paras__a__b" "optim_paras__" = true /\
  exists name first rest,
    "optim_paras__a__b" = "optim_paras__" +:+ name /\
    py_split "__" name = first :: rest /\
    optimizer_key "optim_paras__a__b" = Ok first /\
    (occurs "__" name = false -> optimizer_key "optim_paras__a__b" = Ok name).
Proof.
  assert (H1 : startswith "optim_paras__a__b" "optim_paras__" = true)
    by reflexivity.
  split; [exact H1|].
  exact (optimizer_key_of_prefixed "optim_paras__a__b" H1).
Defined.

Context {V B : Type}.
Variable super_set_params : list (string * V) -> M (@estimator V B) unit.

Lemma optimizer_params_of_plain (params : list (string * V)) (acc : gmap string V) :
  Forall (fun kv => startswith (fst kv) "optim_paras__" = false) params ->
  optimizer_params_of params acc = Ok acc /\
  List.filter (fun kv => negb (startswith (fst kv) "optim_paras__")) params
    = params.
Proof.
  induction 1 as [|[k v] rest Hk _ [IH1 IH2]]; simpl in *; [now split|].
  rewrite Hk. simpl. rewrite IH2. now split.
Qed.

(** X18: where [set_params] sends a parameter.  Parameters whose names
    do not start with "optim_paras__" all go to the parent's
    [set_params] and leave the estimator as it is until then; a
    parameter "optim_paras__name" (no "__" in [name]) sets the entry
    [name] of [optim_paras], keeps the other entries, and is not passed
    on to the parent. *)
Theorem set_params_routes :
  (forall params self,
     Forall (fun kv => startswith (fst kv) "optim_paras__" = false) params ->
     set_params super_set_params params self = super_set_params params self) /\
  (forall name v rest self,
     occurs "__" name = false ->
     Forall (fun kv => startswith (fst kv) "optim_paras__" = false) rest ->
     set_params super_set_params (("optim_paras__" +:+ name, v) :: rest) self
       = super_set_params rest
           (mk_estimator (<[name := v]> (optim_paras self)) (others self))).
Proof.
  split.
  - intros params self Hplain.
    destruct (optimizer_params_of_plain params ∅ Hplain) as [Hop Hf].
    unfold set_params, bind, lift. rewrite Hop, Hf.
    rewrite bool_decide_eq_true_2 by reflexivity. reflexivity.
  - intros name v rest self Hocc Hplain.
    assert (Hk : startswith ("optim_paras__" +:+ name) "optim_paras__" = true)
      by (destruct name; reflexivity).
    destruct (optimizer_params_of_plain rest (<[name := v]> ∅) Hplain)
      as [Hop Hf].
    unfold set_params, bind, lift. cbn [optimizer_params_of fst].
    rewrite Hk, (optimizer_key_plain_name name Hocc).
    cbn [rbind negb List.filter fst].
    rewrite Hk, Hop. cbn [negb]. rewrite Hf.
    rewrite bool_decide_eq_false_2 by apply insert_non_empty.
    unfold modify. cbn [negb].
    now rewrite <- insert_union_l, (left_id_L ∅ (∪)).
Qed.

End SetParams.
